(** * Flying-Car-Nanodegree, p2-control: [motion_planning.py]

    A shallow embedding of the [MotionPlanning] drone class: the flight
    state machine (the three telemetry callbacks and the seven transition
    methods) and [plan_path], the planning stage that turns an obstacle map
    into the waypoint queue.

    Python floats are IEEE binary64 numbers; they are modelled by Rocq's
    primitive floats, which compute with the same arithmetic.  Python
    integers are [Z].  A method of the class is a computation over the
    attributes of the object ([Drone]); an exception leaves the attributes
    as they were when it was raised. *)

From Stdlib Require Import ZArith List Bool Lia QArith Qabs Floats Uint63.
Import ListNotations.

Set Warnings "-inexact-float".

(** ** Numbers *)

(** [float(z)] for an integer that fits 63 bits, as numpy promotes an
    integer operand of a float64 operation (round to nearest even). *)
Definition Z2float (z : Z) : float :=
  if (z <? 0)%Z
  then PrimFloat.opp (PrimFloat.of_uint63 (Uint63.of_Z (- z)))
  else PrimFloat.of_uint63 (Uint63.of_Z z).

(** The exceptions that the modelled code can raise. *)
Inductive exn : Type :=
| IndexError
| ValueError
| OverflowError
| NoPathFound
| NoSkeletonReachable.

(** [int(x)] of a float: truncation toward zero; [ValueError] on a NaN and
    [OverflowError] on an infinity. *)
Definition py_int (x : float) : exn + Z :=
  match Prim2SF x with
  | S754_zero _ => inr 0%Z
  | S754_finite sg m e =>
      let mag := if (0 <=? e)%Z then (Zpos m * 2 ^ e)%Z
                 else (Zpos m / 2 ^ (- e))%Z in
      inr (if sg then (- mag)%Z else mag)
  | S754_infinity _ => inl OverflowError
  | S754_nan => inl ValueError
  end.

(** [~b] on a Python [bool]: [bool] is a subclass of [int] and [~] is the
    integer's bitwise inversion, so [~True = -2] and [~False = -1]. *)
Definition py_invert (b : bool) : Z := Z.lnot (Z.b2z b).

(** [x & y] on two Python integers. *)
Definition py_and (x y : Z) : Z := Z.land x y.

(** The truth value of an integer in an [if]: non-zero. *)
Definition py_truthy (z : Z) : bool := negb (z =? 0)%Z.

(** A numpy array of three float64. *)
Record vec3 : Type := { c0 : float; c1 : float; c2 : float }.

(** [np.linalg.norm] of a vector of two float64: the square root of its
    dot product with itself. *)
Definition norm2 (x y : float) : float :=
  PrimFloat.sqrt (x * x + y * y)%float.

(** ** The attributes of the drone *)

(** [class States(Enum)]. *)
Inductive States : Type :=
| MANUAL
| ARMING
| TAKEOFF
| WAYPOINT
| LANDING
| DISARMING
| PLANNING.

(** A waypoint, the list [[north, east, altitude, heading]] built by
    [plan_path]: three integers and the float of [heading]. *)
Record waypoint : Type := {
  wp_north : Z;
  wp_east : Z;
  wp_alt : Z;
  wp_heading : float
}.

(** [self.target_position] is the numpy array of [__init__] until the first
    [waypoint_transition] replaces it by the waypoint popped from the queue. *)
Inductive target : Type :=
| NpArray (v : vec3)
| PyList (w : waypoint).

(** The commands that the class sends to the flight controller and to the
    simulator, in the order of the calls. *)
Inductive command : Type :=
| Arm
| TakeControl
| Takeoff (alt : float)
| CmdPosition (north east alt : Z) (hdg : float)
| Land
| Disarm
| ReleaseControl
| Stop
| SetHomePosition (lon lat alt : float)
| SendWaypoints (ws : list waypoint).

(** The object: the attributes of [MotionPlanning], the telemetry attributes
    that the base class [Drone] keeps up to date, and the commands sent so far. *)
Record Drone : Type := {
  flight_state : States;
  in_mission : bool;
  waypoints : list waypoint;
  target_position : target;
  local_position : vec3;
  local_velocity : vec3;
  global_position : vec3;
  global_home : vec3;
  armed : bool;
  guided : bool;
  sent : list command
}.

Definition set_flight_state (x : States) (d : Drone) : Drone :=
  {| flight_state := x; in_mission := in_mission d; waypoints := waypoints d;
     target_position := target_position d; local_position := local_position d;
     local_velocity := local_velocity d; global_position := global_position d;
     global_home := global_home d; armed := armed d; guided := guided d;
     sent := sent d |}.

Definition set_in_mission (x : bool) (d : Drone) : Drone :=
  {| flight_state := flight_state d; in_mission := x; waypoints := waypoints d;
     target_position := target_position d; local_position := local_position d;
     local_velocity := local_velocity d; global_position := global_position d;
     global_home := global_home d; armed := armed d; guided := guided d;
     sent := sent d |}.

Definition set_waypoints (x : list waypoint) (d : Drone) : Drone :=
  {| flight_state := flight_state d; in_mission := in_mission d; waypoints := x;
     target_position := target_position d; local_position := local_position d;
     local_velocity := local_velocity d; global_position := global_position d;
     global_home := global_home d; armed := armed d; guided := guided d;
     sent := sent d |}.

Definition set_target_position (x : target) (d : Drone) : Drone :=
  {| flight_state := flight_state d; in_mission := in_mission d;
     waypoints := waypoints d; target_position := x;
     local_position := local_position d; local_velocity := local_velocity d;
     global_position := global_position d; global_home := global_home d;
     armed := armed d; guided := guided d; sent := sent d |}.

Definition set_local_position (x : vec3) (d : Drone) : Drone :=
  {| flight_state := flight_state d; in_mission := in_mission d;
     waypoints := waypoints d; target_position := target_position d;
     local_position := x; local_velocity := local_velocity d;
     global_position := global_position d; global_home := global_home d;
     armed := armed d; guided := guided d; sent := sent d |}.

Definition set_local_velocity (x : vec3) (d : Drone) : Drone :=
  {| flight_state := flight_state d; in_mission := in_mission d;
     waypoints := waypoints d; target_position := target_position d;
     local_position := local_position d; local_velocity := x;
     global_position := global_position d; global_home := global_home d;
     armed := armed d; guided := guided d; sent := sent d |}.

Definition set_status (a g : bool) (d : Drone) : Drone :=
  {| flight_state := flight_state d; in_mission := in_mission d;
     waypoints := waypoints d; target_position := target_position d;
     local_position := local_position d; local_velocity := local_velocity d;
     global_position := global_position d; global_home := global_home d;
     armed := a; guided := g; sent := sent d |}.

Definition set_global (pos home : vec3) (d : Drone) : Drone :=
  {| flight_state := flight_state d; in_mission := in_mission d;
     waypoints := waypoints d; target_position := target_position d;
     local_position := local_position d; local_velocity := local_velocity d;
     global_position := pos; global_home := home;
     armed := armed d; guided := guided d; sent := sent d |}.

Definition push_sent (c : command) (d : Drone) : Drone :=
  {| flight_state := flight_state d; in_mission := in_mission d;
     waypoints := waypoints d; target_position := target_position d;
     local_position := local_position d; local_velocity := local_velocity d;
     global_position := global_position d; global_home := global_home d;
     armed := armed d; guided := guided d; sent := sent d ++ [c] |}.

(** [MotionPlanning.__init__]: the attributes of a fresh object, given the
    telemetry that the base class starts with. *)
Definition init (lp lv gp gh : vec3) (a g : bool) : Drone :=
  {| flight_state := MANUAL; in_mission := true; waypoints := [];
     target_position := NpArray {| c0 := 0; c1 := 0; c2 := 0 |};
     local_position := lp; local_velocity := lv;
     global_position := gp; global_home := gh;
     armed := a; guided := g; sent := [] |}.

(** ** Methods as computations *)

(** The result of a call: it returns, it raises, or it is still running when
    the supplied random draws are used up ([Hang], only the goal loop of
    [plan_path] can).  Each carries the attributes at that point. *)
Inductive outcome (A : Type) : Type :=
| Return (a : A) (d : Drone)
| Raise (e : exn) (d : Drone)
| Hang (d : Drone).

Arguments Return {A} a d.
Arguments Raise {A} e d.
Arguments Hang {A} d.

Definition M (A : Type) : Type := Drone -> outcome A.

Definition ret {A : Type} (a : A) : M A := fun d => Return a d.

Definition bind {A B : Type} (c : M A) (k : A -> M B) : M B :=
  fun d =>
    match c d with
    | Return a d' => k a d'
    | Raise e d' => Raise e d'
    | Hang d' => Hang d'
    end.

Declare Scope py_scope.
Delimit Scope py_scope with py.
Notation "x <- c ;; k" := (bind c (fun x => k))
  (at level 61, c at next level, right associativity) : py_scope.
Notation "c ;; k" := (bind c (fun _ => k))
  (at level 61, right associativity) : py_scope.
Local Open Scope py_scope.

Definition gets {A : Type} (f : Drone -> A) : M A := fun d => Return (f d) d.
Definition modify (f : Drone -> Drone) : M unit := fun d => Return tt (f d).
Definition raise {A : Type} (e : exn) : M A := fun d => Raise e d.
Definition hang {A : Type} : M A := fun d => Hang d.
Definition send (c : command) : M unit := modify (push_sent c).

(** A fallible pure call made from a method. *)
Definition lift {A : Type} (r : exn + A) : M A :=
  match r with
  | inl e => raise e
  | inr a => ret a
  end.

(** The attributes after a call, however it ended. *)
Definition final {A : Type} (o : outcome A) : Drone :=
  match o with
  | Return _ d => d
  | Raise _ d => d
  | Hang d => d
  end.

(** ** Reading the target position *)

(** [self.target_position[2]] as a float64 operand. *)
Definition target_alt (t : target) : float :=
  match t with
  | NpArray v => c2 v
  | PyList w => Z2float (wp_alt w)
  end.

(** [self.target_position[0:2]] as float64 operands. *)
Definition target_ne (t : target) : float * float :=
  match t with
  | NpArray v => (c0 v, c1 v)
  | PyList w => (Z2float (wp_north w), Z2float (wp_east w))
  end.

(** [self.target_position[2] = alt], an item assignment: into the float64
    array it stores the float, into the list the integer itself. *)
Definition store_target_alt (alt : Z) (t : target) : target :=
  match t with
  | NpArray v => NpArray {| c0 := c0 v; c1 := c1 v; c2 := Z2float alt |}
  | PyList w =>
      PyList {| wp_north := wp_north w; wp_east := wp_east w; wp_alt := alt;
                wp_heading := wp_heading w |}
  end.

(** ** The transition methods *)

Definition arming_transition : M unit :=
  modify (set_flight_state ARMING) ;;
  send Arm ;;
  send TakeControl.

Definition takeoff_transition : M unit :=
  modify (set_flight_state TAKEOFF) ;;
  t <- gets target_position ;;
  send (Takeoff (target_alt t)).

(** [self.waypoints.pop(0)]. *)
Definition pop_waypoint : M waypoint :=
  ws <- gets waypoints ;;
  match ws with
  | [] => raise IndexError
  | w :: rest => modify (set_waypoints rest) ;; ret w
  end.

Definition waypoint_transition : M unit :=
  modify (set_flight_state WAYPOINT) ;;
  w <- pop_waypoint ;;
  modify (set_target_position (PyList w)) ;;
  send (CmdPosition (wp_north w) (wp_east w) (wp_alt w) (wp_heading w)).

Definition landing_transition : M unit :=
  modify (set_flight_state LANDING) ;;
  send Land.

Definition disarming_transition : M unit :=
  modify (set_flight_state DISARMING) ;;
  send Disarm ;;
  send ReleaseControl.

Definition manual_transition : M unit :=
  modify (set_flight_state MANUAL) ;;
  send Stop ;;
  modify (set_in_mission false).

(** ** The position and velocity callbacks *)

(** The guard of the TAKEOFF branch:
    [-1.0 * self.local_position[2] > 0.95 * self.target_position[2]]. *)
Definition takeoff_reached (d : Drone) : bool :=
  (0.95 * target_alt (target_position d) <? -1.0 * c2 (local_position d))%float.

(** [np.linalg.norm(self.target_position[0:2] - self.local_position[0:2])]. *)
Definition target_distance (d : Drone) : float :=
  let '(tn, te) := target_ne (target_position d) in
  norm2 (tn - c0 (local_position d))%float (te - c1 (local_position d))%float.

(** [np.linalg.norm(self.local_velocity[0:2])]. *)
Definition horizontal_speed (d : Drone) : float :=
  norm2 (c0 (local_velocity d)) (c1 (local_velocity d)).

Definition local_position_callback : M unit :=
  st <- gets flight_state ;;
  match st with
  | TAKEOFF =>
      up <- gets takeoff_reached ;;
      if up then waypoint_transition else ret tt
  | WAYPOINT =>
      dist <- gets target_distance ;;
      if (dist <? 5.0)%float then
        ws <- gets waypoints ;;
        if (0 <? Z.of_nat (length ws))%Z then waypoint_transition
        else
          speed <- gets horizontal_speed ;;
          if (speed <? 1.0)%float then landing_transition else ret tt
      else ret tt
  | _ => ret tt
  end.

Definition velocity_callback : M unit :=
  st <- gets flight_state ;;
  match st with
  | LANDING =>
      gp <- gets global_position ;;
      gh <- gets global_home ;;
      if (c2 gp - c2 gh <? 0.1)%float then
        lp <- gets local_position ;;
        if (PrimFloat.abs (c2 lp) <? 0.01)%float then disarming_transition
        else ret tt
      else ret tt
  | _ => ret tt
  end.

(** ** The planning stage *)

(** A grid cell, [(row, col)]. *)
Definition cell : Type := (Z * Z)%type.

(** A 2-D numpy array of zeros and ones (occupancy grid, skeleton): [true]
    is a non-zero entry. *)
Definition Grid : Type := list (list bool).

(** [grid[r, c]], [None] out of range. *)
Definition grid_at (g : Grid) (r c : nat) : option bool :=
  match nth_error g r with
  | None => None
  | Some row => nth_error row c
  end.

(** [skimage.util.invert] on such an array: ones become zeros and zeros ones. *)
Definition invert (g : Grid) : Grid := map (map negb) g.

(** The functions that [plan_path] imports from [planning_utils], [grid] and
    [skimage]; their code is not part of [motion_planning.py].  [obstacles]
    is the table that [np.loadtxt] reads from [colliders.csv]. *)
Class Planner : Type := {
  obstacles : Type;
  create_grid : obstacles -> Z -> Z -> Grid * Z * Z;
  medial_axis : Grid -> Grid;
  find_start_goal : Grid -> cell -> cell -> exn + (cell * cell);
  a_star : Grid -> cell -> cell -> exn + (list cell * float);
  collinearity : list cell -> list cell;
  heading : list cell -> list float
}.

(** The contents of [colliders.csv]: the two numbers of its first line and the
    obstacle table. *)
Record World `{Planner} : Type := {
  lat0 : float;
  lon0 : float;
  data : obstacles
}.

Definition TARGET_ALTITUDE : Z := 5.
Definition SAFETY_DISTANCE : Z := 5.

(** The bounds of the two [randrange] calls, [len(grid[:,1]-1)] and
    [len(grid[1,:]-1)], index column 1 and row 1 of the array: they raise
    [IndexError] unless it has two columns and two rows at least.  The
    rows of the array have the length of the first; an array without rows
    is taken to have no columns. *)
Definition indexable (grid : Grid) : bool :=
  (2 <=? length (hd [] grid))%nat && (2 <=? length grid)%nat.

(** The iterations of the loop [while not found] on an indexable grid:
    [draws] are the successive pairs returned by the two [randrange] calls;
    the first pair on a free cell is the goal. *)
Fixpoint draw_goal (grid : Grid) (draws : list (nat * nat)) : M cell :=
  match draws with
  | [] => hang
  | (r, c) :: rest =>
      match grid_at grid r c with
      | None => raise IndexError
      | Some occupied =>
          if occupied then draw_goal grid rest
          else ret (Z.of_nat r, Z.of_nat c)
      end
  end.

(** The loop [while not found]: its first iteration raises before any cell
    is tested when the bounds cannot be computed. *)
Definition pick_goal (grid : Grid) (draws : list (nat * nat)) : M cell :=
  if indexable grid then draw_goal grid draws else raise IndexError.

(** [[[int(p[0]) + north_offset, int(p[1]) + east_offset, TARGET_ALTITUDE]
    for p in path]]. *)
Definition path_to_triples (north_offset east_offset : Z) (path : list cell)
  : list (Z * Z * Z) :=
  map (fun p : cell =>
         (fst p + north_offset, snd p + east_offset, TARGET_ALTITUDE)%Z)
      path.

(** [for i in range(len(waypoints)): waypoints[i].append(theta[i])], from
    index [i] on; [theta[i]] raises [IndexError] past the end of [theta]. *)
Fixpoint append_headings (i : nat) (ws : list (Z * Z * Z)) (theta : list float)
  : exn + list waypoint :=
  match ws with
  | [] => inr []
  | (n, e, a) :: rest =>
      match nth_error theta i with
      | None => inl IndexError
      | Some h =>
          match append_headings (S i) rest theta with
          | inl x => inl x
          | inr r =>
              inr ({| wp_north := n; wp_east := e; wp_alt := a;
                      wp_heading := h |} :: r)
          end
      end
  end.

(** [plan_path] on a map file that is read, a [World]; [plan_path_from],
    below, covers the file that is not.  The local position that it computes
    with [global_to_local] is only printed and is left out. *)
Definition plan_path `{Planner} (w : World) (draws : list (nat * nat)) : M unit :=
  modify (set_flight_state PLANNING) ;;
  t <- gets target_position ;;
  modify (set_target_position (store_target_alt TARGET_ALTITUDE t)) ;;
  send (SetHomePosition (lon0 w) (lat0 w) 0) ;;
  let '(grid, north_offset, east_offset) :=
    create_grid (data w) TARGET_ALTITUDE SAFETY_DISTANCE in
  let skeleton := medial_axis (invert grid) in
  lp <- gets local_position ;;
  start_n <- lift (py_int (c0 lp - Z2float north_offset)%float) ;;
  start_e <- lift (py_int (c1 lp - Z2float east_offset)%float) ;;
  goal_ne <- pick_goal grid draws ;;
  sg <- lift (find_start_goal skeleton (start_n, start_e) goal_ne) ;;
  pc <- lift (a_star (invert skeleton) (fst sg) (snd sg)) ;;
  let path := collinearity (fst pc) in
  ws <- lift (append_headings 0
                (path_to_triples north_offset east_offset path)
                (heading path)) ;;
  modify (set_waypoints ws) ;;
  send (SendWaypoints ws).

(** The attributes once [plan_path] has set the state, the target altitude
    and the home position, before it reads the map. *)
Definition planning_started `{Planner} (w : World) (d : Drone) : Drone :=
  push_sent (SetHomePosition (lon0 w) (lat0 w) 0)
    (set_target_position (store_target_alt TARGET_ALTITUDE (target_position d))
       (set_flight_state PLANNING d)).

(** The waypoint list [ws] follows [path]: same length and order, the
    [i]-th waypoint being the [i]-th cell shifted by the offsets, at the
    target altitude, with the [i]-th heading of [heading path]. *)
Definition waypoints_follow `{Planner} (north_offset east_offset : Z)
  (path : list cell) (ws : list waypoint) : Prop :=
  length ws = length path /\
  forall i p,
    nth_error path i = Some p ->
    exists h,
      nth_error (heading path) i = Some h /\
      nth_error ws i
      = Some {| wp_north := fst p + north_offset;
                wp_east := snd p + east_offset;
                wp_alt := TARGET_ALTITUDE;
                wp_heading := h |}.


(** ** The vehicle-status callback *)

(** The guard of the DISARMING branch, [~self.armed & ~self.guided]: the
    two flags are Python [bool]s. *)
Definition disarm_guard (d : Drone) : bool :=
  py_truthy (py_and (py_invert (armed d)) (py_invert (guided d))).

Definition state_callback `{Planner} (w : World) (draws : list (nat * nat))
  : M unit :=
  im <- gets in_mission ;;
  if im then
    st <- gets flight_state ;;
    match st with
    | MANUAL => arming_transition
    | ARMING =>
        a <- gets armed ;;
        if a then plan_path w draws else ret tt
    | PLANNING => takeoff_transition
    | DISARMING =>
        g <- gets disarm_guard ;;
        if g then manual_transition else ret tt
    | _ => ret tt
    end
  else ret tt.

(** ** Telemetry *)

(** A telemetry message: the base class stores its contents in the
    attributes, then calls the callback registered for it.  Global position
    and home have no callback in this class. *)
Inductive message : Type :=
| MsgLocalPosition (p : vec3)
| MsgLocalVelocity (v : vec3)
| MsgState (a g : bool)
| MsgGlobal (pos home : vec3).

Definition deliver `{Planner} (w : World) (draws : list (nat * nat))
  (m : message) : M unit :=
  match m with
  | MsgLocalPosition p =>
      modify (set_local_position p) ;; local_position_callback
  | MsgLocalVelocity v =>
      modify (set_local_velocity v) ;; velocity_callback
  | MsgState a g =>
      modify (set_status a g) ;; state_callback w draws
  | MsgGlobal pos home => modify (set_global pos home)
  end.

(** A sequence of messages, each with the random draws available to it,
    as one computation: it ends with the first callback that does not
    return.  [drive], below, goes on after a callback that raises. *)
Fixpoint run `{Planner} (w : World) (ms : list (message * list (nat * nat)))
  : M unit :=
  match ms with
  | [] => ret tt
  | (m, draws) :: rest => deliver w draws m ;; run w rest
  end.

(** ** The map file *)

(** What reading [colliders.csv] comes to.  [Readable]: the file is read, a
    [World].  [NoHeader]: [open], [float] or the index raises while the
    first line is read, before [set_home_position].  [NoTable]: the first
    line is read and the home position set, then [global_to_local],
    [np.loadtxt] or the construction of the grid raises. *)
Inductive map_file `{Planner} : Type :=
| Readable (w : World)
| NoHeader (e : exn)
| NoTable (lat lon : float) (e : exn).

(** The attributes once [plan_path] has set the state and the target
    altitude, before it opens the map file. *)
Definition planning_begun (d : Drone) : Drone :=
  set_target_position (store_target_alt TARGET_ALTITUDE (target_position d))
    (set_flight_state PLANNING d).

(** [plan_path] on any map file: on a [World] it is [plan_path] above; on
    the two others it runs up to the statement that raises. *)
Definition plan_path_from `{Planner} (f : map_file) (draws : list (nat * nat))
  : M unit :=
  match f with
  | Readable w => plan_path w draws
  | NoHeader e =>
      modify (set_flight_state PLANNING) ;;
      t <- gets target_position ;;
      modify (set_target_position (store_target_alt TARGET_ALTITUDE t)) ;;
      raise e
  | NoTable lat lon e =>
      modify (set_flight_state PLANNING) ;;
      t <- gets target_position ;;
      modify (set_target_position (store_target_alt TARGET_ALTITUDE t)) ;;
      send (SetHomePosition lon lat 0) ;;
      raise e
  end.

(** [state_callback] on any map file. *)
Definition state_callback_from `{Planner} (f : map_file)
  (draws : list (nat * nat)) : M unit :=
  im <- gets in_mission ;;
  if im then
    st <- gets flight_state ;;
    match st with
    | MANUAL => arming_transition
    | ARMING =>
        a <- gets armed ;;
        if a then plan_path_from f draws else ret tt
    | PLANNING => takeoff_transition
    | DISARMING =>
        g <- gets disarm_guard ;;
        if g then manual_transition else ret tt
    | _ => ret tt
    end
  else ret tt.

Definition deliver_from `{Planner} (f : map_file) (draws : list (nat * nat))
  (m : message) : M unit :=
  match m with
  | MsgLocalPosition p =>
      modify (set_local_position p) ;; local_position_callback
  | MsgLocalVelocity v =>
      modify (set_local_velocity v) ;; velocity_callback
  | MsgState a g =>
      modify (set_status a g) ;; state_callback_from f draws
  | MsgGlobal pos home => modify (set_global pos home)
  end.

(** The attributes after a sequence of messages delivered one by one, each
    to the attributes that the one before left, whether its callback
    returned or raised; a callback that never returns ends the sequence.
    The attributes that a dispatcher leaves which stops at the first
    exception are those of [drive] on the messages it delivered. *)
Fixpoint drive `{Planner} (f : map_file)
  (ms : list (message * list (nat * nat))) (d : Drone) : Drone :=
  match ms with
  | [] => d
  | (m, draws) :: rest =>
      match deliver_from f draws m d with
      | Return _ d' => drive f rest d'
      | Raise _ d' => drive f rest d'
      | Hang d' => d'
      end
  end.

(** ** The path simplifier *)

(** The determinant of the homogeneous matrix
    [[ax, ay, 1], [bx, by, 1], [cx, cy, 1]], expanded along its first row. *)
Definition det3 (a b c : cell) : Z :=
  (fst a * (snd b - snd c) - snd a * (fst b - fst c)
   + (fst b * snd c - snd b * fst c))%Z.

(** The signed area of the triangle [a b c]: half that determinant. *)
Definition signed_area (a b c : cell) : Q := det3 a b c # 2.

(** Modelled from the spec: the collinearity test of [planning_utils.py],
    whose code is missing.  Three consecutive points are collinear iff the
    signed area of their triangle is within [epsilon] of zero. *)
Definition collinear (epsilon : Q) (a b c : cell) : bool :=
  negb (Qle_bool epsilon (Qabs (signed_area a b c))).

(** The points kept after [a], the point before the head of [rest] in the
    path: an interior point stays iff it is not collinear with the points
    before and after it; the last point (the goal) always stays. *)
Fixpoint simplify_from (epsilon : Q) (a : cell) (rest : list cell) : list cell :=
  match rest with
  | [] => []
  | b :: rest' =>
      match rest' with
      | [] => [b]
      | c :: _ =>
          if collinear epsilon a b c then simplify_from epsilon b rest'
          else b :: simplify_from epsilon b rest'
      end
  end.

(** Modelled from the spec: [collinearity] of [planning_utils.py], the path
    simplifier, whose code is missing.  It retains the start, the goal and
    the interior points where the direction of travel changes. *)
Definition simplify (epsilon : Q) (path : list cell) : list cell :=
  match path with
  | [] => []
  | a :: rest => a :: simplify_from epsilon a rest
  end.

(** The difference of two adjacent cells of a path is one of the eight unit
    offsets. *)
Definition unit_step (a b : cell) : Prop :=
  (Z.max (Z.abs (fst b - fst a)) (Z.abs (snd b - snd a)) = 1)%Z.

Fixpoint unit_steps_from (a : cell) (rest : list cell) : Prop :=
  match rest with
  | [] => True
  | b :: rest' => unit_step a b /\ unit_steps_from b rest'
  end.

(** A Path of the data model: each adjacent pair differs by one of the eight
    unit offsets and, as A* returns it, no cell occurs twice. *)
Definition Path (p : list cell) : Prop :=
  match p with
  | [] => True
  | a :: rest => unit_steps_from a rest
  end /\ NoDup p.

(** No interior point of [a :: l] is collinear with its two neighbours. *)
Fixpoint sharp_from (epsilon : Q) (a : cell) (l : list cell) : Prop :=
  match l with
  | [] => True
  | b :: l' =>
      match l' with
      | [] => True
      | c :: _ => collinear epsilon a b c = false
      end /\ sharp_from epsilon b l'
  end.

(** ** A sample planner *)

(** An instance of [Planner] small enough to run: the obstacle table is the
    occupancy grid itself with its offsets, every free cell is a skeleton
    cell, and the search tries the straight king-move path, which is a
    shortest path on an open field. *)
Module Sample.

Definition epsilon : Q := 1 # 1000000.

Definition pi : float := 0x1.921fb54442d18p+1%float.

(** [atan2(de, dn)] for a segment along one of the eight compass
    directions, the only ones a simplified king-move path has. *)
Definition compass_atan2 (de dn : Z) : float :=
  match (de ?= 0)%Z, (dn ?= 0)%Z with
  | Eq, Lt => pi
  | Eq, _ => 0
  | Gt, Gt => pi / 4
  | Gt, Eq => pi / 2
  | Gt, Lt => 3 * pi / 4
  | Lt, Gt => - (pi / 4)
  | Lt, Eq => - (pi / 2)
  | Lt, Lt => - (3 * pi / 4)
  end%float.

Fixpoint headings_from (prev : cell) (rest : list cell) : list float :=
  match rest with
  | [] => []
  | p :: rest' =>
      compass_atan2 (snd p - snd prev) (fst p - fst prev)
        :: headings_from p rest'
  end.

(** Modelled from the spec: [heading] of [planning_utils.py]; the first
    heading is 0, each other one the angle of the arriving segment. *)
Definition heading (path : list cell) : list float :=
  match path with
  | [] => []
  | p :: rest => 0%float :: headings_from p rest
  end.

Definition cell_eqb (a b : cell) : bool :=
  ((fst a =? fst b) && (snd a =? snd b))%Z.

Fixpoint king_path (fuel : nat) (from to : cell) : list cell :=
  match fuel with
  | O => [from]
  | S k =>
      if cell_eqb from to then [from]
      else from :: king_path k
                     (fst from + Z.sgn (fst to - fst from),
                      snd from + Z.sgn (snd to - snd from))%Z to
  end.

Definition cell_value (g : Grid) (p : cell) : option bool :=
  if ((fst p <? 0) || (snd p <? 0))%Z then None
  else grid_at g (Z.to_nat (fst p)) (Z.to_nat (snd p)).

Definition free (g : Grid) (p : cell) : bool :=
  match cell_value g p with
  | Some false => true
  | _ => false
  end.

Definition on_skeleton (g : Grid) (p : cell) : bool :=
  match cell_value g p with
  | Some true => true
  | _ => false
  end.

Fixpoint path_cost (a : cell) (rest : list cell) : float :=
  match rest with
  | [] => 0
  | b :: rest' =>
      (if ((fst a =? fst b) || (snd a =? snd b))%Z then 1
       else PrimFloat.sqrt 2) + path_cost b rest'
  end%float.

Definition a_star (g : Grid) (start goal : cell) : exn + (list cell * float) :=
  let n := Z.to_nat (Z.max (Z.abs (fst goal - fst start))
                           (Z.abs (snd goal - snd start))) in
  let p := king_path n start goal in
  if forallb (free g) p then inr (p, path_cost start (tl p))
  else inl NoPathFound.

Definition find_start_goal (skeleton : Grid) (start goal : cell)
  : exn + (cell * cell) :=
  if on_skeleton skeleton start && on_skeleton skeleton goal
  then inr (start, goal)
  else inl NoSkeletonReachable.

Definition planner : Planner :=
  Build_Planner (Grid * Z * Z) (fun o _ _ => o) (fun g => g)
    find_start_goal a_star (simplify epsilon) heading.

(** An open field of 3 rows and 4 columns whose cell [(0, 0)] lies at
    north -1, east -2. *)
Definition open_field : @World planner :=
  @Build_World planner 37.79248 (-122.39745)
    ([[false; false; false; false];
      [false; false; false; false];
      [false; false; false; false]], -1, -2)%Z.

(** The same field with the corner [(0, 0)] walled in. *)
Definition walled_field : @World planner :=
  @Build_World planner 37.79248 (-122.39745)
    ([[false; true; false; false];
      [true; true; false; false];
      [false; false; false; false]], -1, -2)%Z.

Definition origin : vec3 := {| c0 := 0; c1 := 0; c2 := 0 |}.

(** A drone on the ground at the local origin, armed and guided, waiting
    in ARMING for the status message. *)
Definition armed_drone : Drone :=
  set_status true true (set_flight_state ARMING
    (init origin origin origin origin false false)).

(** The same drone 100 m north of the origin, off the map. *)
Definition stray_drone : Drone :=
  set_local_position {| c0 := 100; c1 := 0; c2 := 0 |} armed_drone.

(** A path with two bends: north, then north-east, then east. *)
Definition dogleg : list cell :=
  [(0, 0); (1, 0); (2, 0); (3, 1); (4, 2); (4, 3)]%Z.

(** A sequence of unit steps that steps back onto its first cell, which
    no search returns. *)
Definition backtrack : list cell := [(0, 0); (1, 0); (0, 0); (0, 1)]%Z.

(** A drone with the given state, queue, target and local telemetry;
    the global telemetry is at the origin. *)
Definition drone (st : States) (ws : list waypoint) (t : target)
  (lp lv : vec3) : Drone :=
  {| flight_state := st; in_mission := true; waypoints := ws;
     target_position := t; local_position := lp; local_velocity := lv;
     global_position := origin; global_home := origin;
     armed := true; guided := true; sent := [] |}.

Definition wp1 : waypoint :=
  {| wp_north := 10; wp_east := 0; wp_alt := 5; wp_heading := 0 |}.

Definition wp2 : waypoint :=
  {| wp_north := 10; wp_east := 20; wp_alt := 5; wp_heading := pi / 2 |}.

(** Climbing toward 5 m: the target of [plan_path] and a local position
    at the given down coordinate. *)
Definition climbing (ws : list waypoint) (down : float) : Drone :=
  drone TAKEOFF ws (NpArray {| c0 := 0; c1 := 0; c2 := 5 |})
    {| c0 := 0; c1 := 0; c2 := down |} origin.

(** Flying to [wp1] at the given north coordinate and north speed. *)
Definition cruising (ws : list waypoint) (north speed : float) : Drone :=
  drone WAYPOINT ws (PyList wp1)
    {| c0 := north; c1 := 0; c2 := -5 |}
    {| c0 := speed; c1 := 0; c2 := 0 |}.

(** Descending: the given global altitude, home altitude and local down
    coordinate. *)
Definition descending (alt home down : float) : Drone :=
  set_global {| c0 := 0; c1 := 0; c2 := alt |}
             {| c0 := 0; c1 := 0; c2 := home |}
    (drone LANDING [] (PyList wp1) {| c0 := 10; c1 := 0; c2 := down |} origin).

(** Waiting in DISARMING with the given status flags. *)
Definition disarming (a g : bool) : Drone :=
  set_status a g (drone DISARMING [] (PyList wp1) origin origin).

(** A planner whose [heading] gives one angle per segment of the path, one
    fewer than its points. *)
Definition segment_planner : Planner :=
  Build_Planner (Grid * Z * Z) (fun o _ _ => o) (fun g => g)
    find_start_goal a_star (simplify epsilon) (fun path => tl (heading path)).

(** The open field for that planner. *)
Definition segment_field : @World segment_planner :=
  @Build_World segment_planner 37.79248 (-122.39745)
    ([[false; false; false; false];
      [false; false; false; false];
      [false; false; false; false]], -1, -2)%Z.

(** The telemetry of a whole mission on the open field, with the goal drawn
    at the cell [(2, 3)]: status messages up to the takeoff, the climb, the
    two waypoints, the descent and a last status message. *)
Definition mission : list (message * list (nat * nat)) :=
  [(MsgState false false, []);
   (MsgState true true, [(2, 3)%nat]);
   (MsgState true true, []);
   (MsgLocalPosition {| c0 := 0; c1 := 0; c2 := -4.8 |}, []);
   (MsgLocalPosition {| c0 := 0; c1 := 0; c2 := -5 |}, []);
   (MsgLocalPosition {| c0 := 1; c1 := 1; c2 := -5 |}, []);
   (MsgLocalPosition {| c0 := 1; c1 := 1; c2 := 0 |}, []);
   (MsgLocalVelocity origin, []);
   (MsgState true true, [])].

(** The telemetry of a mission whose planning fails: the statuses up to
    the takeoff, the climb, and a position at the target. *)
Definition blind_mission : list (message * list (nat * nat)) :=
  [(MsgState false false, []);
   (MsgState true true, [(2, 3)%nat]);
   (MsgState true true, []);
   (MsgLocalPosition {| c0 := 0; c1 := 0; c2 := -4.8 |}, []);
   (MsgLocalPosition {| c0 := 0; c1 := 0; c2 := -5 |}, [])].

End Sample.

(** The state machine at rest: MANUAL with the mission over. *)
Definition at_rest (d : Drone) : Prop :=
  flight_state d = MANUAL /\ in_mission d = false.

(** ** The guards in the words of the specification *)

(** "altitude >= 95% of target". *)
Definition at_least_95_percent (d : Drone) : bool :=
  (0.95 * target_alt (target_position d) <=? -1.0 * c2 (local_position d))%float.

(** "altitude within 0.1 of home". *)
Definition within_tenth_of_home (d : Drone) : bool :=
  (PrimFloat.abs (c2 (global_position d) - c2 (global_home d)) <? 0.1)%float.

(** "|local altitude| < 0.01". *)
Definition local_altitude_near_zero (d : Drone) : bool :=
  (PrimFloat.abs (c2 (local_position d)) <? 0.01)%float.

(** "disarmed and not under guided control". *)
Definition disarmed_and_released (d : Drone) : bool :=
  negb (armed d) && negb (guided d).

(** ** The course of a mission *)

(** Which state a message may lead to from the state [s]: the same state,
    or the one state that the callback registered for the message can
    reach from [s]. *)
Definition may_move (m : message) (s s' : States) : Prop :=
  s' = s \/
  match m, s with
  | MsgLocalPosition _, TAKEOFF => s' = WAYPOINT
  | MsgLocalPosition _, WAYPOINT => s' = LANDING
  | MsgLocalVelocity _, LANDING => s' = DISARMING
  | MsgState _ _, MANUAL => s' = ARMING
  | MsgState _ _, ARMING => s' = PLANNING
  | MsgState _ _, PLANNING => s' = TAKEOFF
  | MsgState _ _, DISARMING => s' = MANUAL
  | _, _ => False
  end.

(** The commands of a mission other than the position commands and the
    waypoint upload, without their arguments. *)
Inductive step : Type :=
| SArm
| STakeControl
| SSetHome
| STakeoff
| SLand
| SDisarm
| SReleaseControl
| SStop.

Definition step_of (c : command) : list step :=
  match c with
  | Arm => [SArm]
  | TakeControl => [STakeControl]
  | SetHomePosition _ _ _ => [SSetHome]
  | Takeoff _ => [STakeoff]
  | Land => [SLand]
  | Disarm => [SDisarm]
  | ReleaseControl => [SReleaseControl]
  | Stop => [SStop]
  | CmdPosition _ _ _ _ => []
  | SendWaypoints _ => []
  end.

Definition steps (cs : list command) : list step := flat_map step_of cs.

(** The order in which the transition methods and [plan_path] send them. *)
Definition mission_order : list step :=
  [SArm; STakeControl; SSetHome; STakeoff; SLand; SDisarm; SReleaseControl;
   SStop].

(** The same without the home position, which is not sent when the first
    line of the map file cannot be read. *)
Definition quiet_order : list step :=
  [SArm; STakeControl; STakeoff; SLand; SDisarm; SReleaseControl; SStop].

Definition header_fails `{Planner} (f : map_file) : bool :=
  match f with
  | NoHeader _ => true
  | _ => false
  end.

(** How many of them have been sent when the object is in a given state. *)
Definition progress (d : Drone) : nat :=
  match flight_state d with
  | MANUAL => if in_mission d then 0 else 8
  | ARMING => 2
  | PLANNING => 3
  | TAKEOFF => 4
  | WAYPOINT => 4
  | LANDING => 5
  | DISARMING => 7
  end.

(** The waypoints of the position commands sent, in order. *)
Definition commanded (cs : list command) : list waypoint :=
  flat_map (fun c =>
              match c with
              | CmdPosition n e a h =>
                  [{| wp_north := n; wp_east := e; wp_alt := a;
                      wp_heading := h |}]
              | _ => []
              end) cs.

(** The waypoint lists uploaded to the simulator, in order. *)
Definition uploads (cs : list command) : list (list waypoint) :=
  flat_map (fun c => match c with SendWaypoints ws => [ws] | _ => [] end) cs.

(** The altitudes of the takeoff commands sent, in order. *)
Definition takeoffs (cs : list command) : list float :=
  flat_map (fun c => match c with Takeoff a => [a] | _ => [] end) cs.

(** The commands to expect after [p] steps of the mission: the first [p]
    of the mission order, or, from PLANNING on when the header of the map
    file cannot be read ([quiet]), those without the home position. *)
Definition expected_steps (quiet : bool) (p : nat) : list step :=
  if quiet && (3 <=? p)%nat then firstn (p - 1) quiet_order
  else firstn p mission_order.

(** The bookkeeping that every message keeps, from a fresh object on. *)
Record coherent (quiet : bool) (d : Drone) : Prop := {
  over_is_manual : in_mission d = false -> flight_state d = MANUAL;
  steps_sent : steps (sent d) = expected_steps quiet (progress d);
  queue_altitude :
    Forall (fun w => wp_alt w = TARGET_ALTITUDE) (waypoints d);
  commanded_altitude :
    Forall (fun w => wp_alt w = TARGET_ALTITUDE) (commanded (sent d));
  takeoff_altitude :
    Forall (fun a => a = Z2float TARGET_ALTITUDE) (takeoffs (sent d));
  planned_altitude :
    flight_state d = PLANNING ->
    target_alt (target_position d) = Z2float TARGET_ALTITUDE;
  plan_consumed :
    match uploads (sent d) with
    | [] => commanded (sent d) = [] /\ waypoints d = []
    | [ws] => ws = commanded (sent d) ++ waypoints d
    | _ => False
    end;
  no_plan_yet :
    flight_state d = ARMING \/ (flight_state d = MANUAL /\ in_mission d = true) ->
    uploads (sent d) = []
}.

(** The descent has begun: the state is LANDING or DISARMING, or the
    mission is over. *)
Definition descent_begun (d : Drone) : Prop :=
  flight_state d = LANDING \/ flight_state d = DISARMING \/
  in_mission d = false.

(** The bookkeeping, and an empty queue once the descent has begun. *)
Definition settled (quiet : bool) (d : Drone) : Prop :=
  coherent quiet d /\ (descent_begun d -> waypoints d = []).

(** * Properties *)

(** ** Running the methods *)

Ltac run_method :=
  cbv [local_position_callback velocity_callback state_callback
       arming_transition takeoff_transition waypoint_transition pop_waypoint
       landing_transition disarming_transition manual_transition
       bind gets modify ret raise send lift hang final].

Lemma bind_return {A B : Type} (c : M A) (k : A -> M B) (d d' : Drone) (a : A) :
  c d = Return a d' -> bind c k d = k a d'.
Proof. intros E. unfold bind. rewrite E. reflexivity. Qed.

Lemma bind_raise {A B : Type} (c : M A) (k : A -> M B) (d d' : Drone) (e : exn) :
  c d = Raise e d' -> bind c k d = Raise e d'.
Proof. intros E. unfold bind. rewrite E. reflexivity. Qed.

(** ** The flight state machine *)

(** On two Python [bool]s the expression [~a & ~g] is never zero. *)
Lemma disarm_guard_always (d : Drone) : disarm_guard d = true.
Proof.
  unfold disarm_guard. destruct (armed d), (guided d); reflexivity.
Qed.

(** In DISARMING, during the mission, the status callback runs
    [manual_transition] whatever the flags are. *)
Lemma disarming_always_leaves `{Planner} (w : World) (draws : list (nat * nat))
  (d : Drone) :
  flight_state d = DISARMING -> in_mission d = true ->
  state_callback w draws d
  = Return tt (set_in_mission false (push_sent Stop (set_flight_state MANUAL d))).
Proof.
  intros Hs Hm. unfold state_callback, bind, gets. rewrite Hm, Hs.
  rewrite disarm_guard_always. reflexivity.
Qed.

(** C1 (the code at the failing input): in DISARMING, with the vehicle still
    armed and still under guided control, the status callback moves the state
    machine to MANUAL and ends the mission, where the claim keeps it in
    DISARMING. *)
Theorem disarming_armed_guided_goes_manual `{Planner} (w : World)
  (draws : list (nat * nat)) :
  disarmed_and_released (Sample.disarming true true) = false /\
  flight_state (final (state_callback w draws (Sample.disarming true true)))
  = MANUAL /\
  in_mission (final (state_callback w draws (Sample.disarming true true)))
  = false.
Proof.
  rewrite disarming_always_leaves by reflexivity.
  repeat split.
Qed.

(** [waypoint_transition] on a non-empty queue. *)
Lemma waypoint_transition_pops (d : Drone) (w : waypoint) (ws : list waypoint) :
  waypoints d = w :: ws ->
  waypoint_transition d
  = Return tt
      (push_sent (CmdPosition (wp_north w) (wp_east w) (wp_alt w) (wp_heading w))
         (set_target_position (PyList w)
            (set_waypoints ws (set_flight_state WAYPOINT d)))).
Proof.
  intros E. run_method. cbn [waypoints set_flight_state]. rewrite E. reflexivity.
Qed.

(** [waypoint_transition] on an empty queue: the state is already WAYPOINT
    when [pop] raises. *)
Lemma waypoint_transition_empty (d : Drone) :
  waypoints d = [] ->
  waypoint_transition d = Raise IndexError (set_flight_state WAYPOINT d).
Proof.
  intros E. run_method. cbn [waypoints set_flight_state]. rewrite E. reflexivity.
Qed.

(** C4: in WAYPOINT, a local-position callback that finds the target closer
    than 5 pops the front waypoint and commands it when the queue is not
    empty, lands when the queue is empty and the horizontal speed is below 1,
    and in every other case changes nothing. *)
Theorem waypoint_position_update (d : Drone) :
  flight_state d = WAYPOINT ->
  (forall w ws,
     (target_distance d <? 5.0)%float = true ->
     waypoints d = w :: ws ->
     exists d',
       local_position_callback d = Return tt d' /\
       flight_state d' = WAYPOINT /\
       waypoints d' = ws /\
       target_position d' = PyList w /\
       sent d' = sent d ++
                 [CmdPosition (wp_north w) (wp_east w) (wp_alt w) (wp_heading w)])
  /\
  ((target_distance d <? 5.0)%float = true ->
   waypoints d = [] ->
   (horizontal_speed d <? 1.0)%float = true ->
   exists d',
     local_position_callback d = Return tt d' /\
     flight_state d' = LANDING /\
     waypoints d' = [] /\
     target_position d' = target_position d /\
     sent d' = sent d ++ [Land])
  /\
  ((target_distance d <? 5.0)%float = false \/
   (waypoints d = [] /\ (horizontal_speed d <? 1.0)%float = false) ->
   local_position_callback d = Return tt d).
Proof.
  intros Hs. repeat split.
  - intros w ws Hd Hw.
    eexists. split.
    + unfold local_position_callback, bind, gets. rewrite Hs, Hd, Hw.
      cbn [length Z.of_nat Z.ltb Z.compare].
      apply waypoint_transition_pops, Hw.
    + repeat split.
  - intros Hd Hw Hv.
    eexists. split.
    + unfold local_position_callback, bind, gets. rewrite Hs, Hd, Hw.
      cbn [length Z.of_nat Z.ltb Z.compare]. rewrite Hv. reflexivity.
    + repeat split. exact Hw.
  - intros [Hd | [Hw Hv]];
      unfold local_position_callback, bind, gets; rewrite Hs.
    + rewrite Hd. reflexivity.
    + destruct (target_distance d <? 5.0)%float; [| reflexivity].
      rewrite Hw. cbn [length Z.of_nat Z.ltb Z.compare]. rewrite Hv.
      reflexivity.
Qed.

(** The three cases of [waypoint_position_update] on concrete drones: 3 m
    from the target with a waypoint left, 3 m from it with none left and
    slow, and 3 m from it with none left but fast. *)
Lemma waypoint_position_update_witness :
  (exists d',
     local_position_callback (Sample.cruising [Sample.wp2] 7 2) = Return tt d' /\
     flight_state d' = WAYPOINT /\ waypoints d' = [] /\
     target_position d' = PyList Sample.wp2 /\
     sent d' = [CmdPosition 10 20 5 (Sample.pi / 2)]) /\
  (exists d',
     local_position_callback (Sample.cruising [] 7 0.5) = Return tt d' /\
     flight_state d' = LANDING /\ waypoints d' = [] /\
     target_position d' = PyList Sample.wp1 /\
     sent d' = [Land]) /\
  local_position_callback (Sample.cruising [] 7 2)
  = Return tt (Sample.cruising [] 7 2).
Proof.
  split; [| split].
  - apply (proj1 (waypoint_position_update (Sample.cruising [Sample.wp2] 7 2)
                    eq_refl) Sample.wp2 []); reflexivity.
  - apply (proj1 (proj2 (waypoint_position_update (Sample.cruising [] 7 0.5)
                           eq_refl))); reflexivity.
  - apply (proj2 (proj2 (waypoint_position_update (Sample.cruising [] 7 2)
                           eq_refl))).
    right. split; reflexivity.
Defined.

(** C5 (counterexample): climbing to the 5 m of [plan_path], at an altitude
    of 4.75 m, which is exactly 95% of the target, the local-position
    callback leaves the state at TAKEOFF. *)
Lemma takeoff_at_95_percent_stays :
  (-1.0 * c2 (local_position (Sample.climbing [Sample.wp1] (-4.75)))
   =? 0.95 * target_alt (target_position (Sample.climbing [Sample.wp1] (-4.75)))
  )%float = true /\
  ~ (flight_state
       (final (local_position_callback (Sample.climbing [Sample.wp1] (-4.75))))
     = WAYPOINT
     <-> at_least_95_percent (Sample.climbing [Sample.wp1] (-4.75)) = true).
Proof.
  split; [reflexivity |].
  intros [_ Hback].
  assert (E : flight_state
                (final (local_position_callback
                          (Sample.climbing [Sample.wp1] (-4.75)))) = TAKEOFF)
    by reflexivity.
  rewrite Hback in E by reflexivity. discriminate E.
Qed.

(** C5 (amended): in TAKEOFF, the local-position callback moves the state
    machine to WAYPOINT exactly when the altitude is strictly greater than
    0.95 times the target altitude; otherwise it changes nothing. *)
Theorem takeoff_position_update (d : Drone) :
  flight_state d = TAKEOFF ->
  (flight_state (final (local_position_callback d)) = WAYPOINT <->
   (0.95 * target_alt (target_position d) <? -1.0 * c2 (local_position d))%float
   = true) /\
  ((0.95 * target_alt (target_position d) <? -1.0 * c2 (local_position d))%float
   = false ->
   local_position_callback d = Return tt d).
Proof.
  intros Hs.
  assert (E : local_position_callback d
              = if takeoff_reached d then waypoint_transition d else Return tt d).
  { unfold local_position_callback, bind, gets. rewrite Hs.
    destruct (takeoff_reached d); reflexivity. }
  rewrite E. fold (takeoff_reached d).
  destruct (takeoff_reached d) eqn:Hup.
  - split; [| discriminate].
    split; [reflexivity |]. intros _.
    destruct (waypoints d) as [| w ws] eqn:Hw.
    + rewrite waypoint_transition_empty by exact Hw. reflexivity.
    + rewrite (waypoint_transition_pops d w ws) by exact Hw. reflexivity.
  - split; [| reflexivity].
    split; [| discriminate]. cbn [final]. rewrite Hs. discriminate.
Qed.

(** [takeoff_position_update] at 4.8 m, above 95% of the 5 m target. *)
Lemma takeoff_position_update_witness :
  flight_state (Sample.climbing [Sample.wp1] (-4.8)) = TAKEOFF /\
  flight_state
    (final (local_position_callback (Sample.climbing [Sample.wp1] (-4.8))))
  = WAYPOINT.
Proof.
  split; [reflexivity |].
  apply (proj1 (takeoff_position_update (Sample.climbing [Sample.wp1] (-4.8))
                  eq_refl)).
  reflexivity.
Defined.

(** C6 (counterexample): landing with the global altitude 10 m below the
    home altitude and the local altitude at zero, the velocity callback
    moves to DISARMING although the global altitude is not within 0.1 of
    home. *)
Lemma landing_below_home_disarms :
  within_tenth_of_home (Sample.descending 0 10 0) = false /\
  ~ (flight_state (final (velocity_callback (Sample.descending 0 10 0)))
     = DISARMING
     <-> within_tenth_of_home (Sample.descending 0 10 0) = true /\
         local_altitude_near_zero (Sample.descending 0 10 0) = true).
Proof.
  split; [reflexivity |].
  intros [Hto _].
  assert (E : flight_state (final (velocity_callback (Sample.descending 0 10 0)))
              = DISARMING) by reflexivity.
  destruct (Hto E) as [Hin _]. discriminate Hin.
Qed.

(** C6 (amended): in LANDING, the velocity callback moves the state machine
    to DISARMING exactly when both guards hold: the global altitude minus the
    home altitude is below 0.1, and the absolute local altitude is below
    0.01; if either fails it changes nothing. *)
Theorem landing_velocity_update (d : Drone) :
  flight_state d = LANDING ->
  (flight_state (final (velocity_callback d)) = DISARMING <->
   (c2 (global_position d) - c2 (global_home d) <? 0.1)%float = true /\
   (PrimFloat.abs (c2 (local_position d)) <? 0.01)%float = true) /\
  ((c2 (global_position d) - c2 (global_home d) <? 0.1)%float = false \/
   (PrimFloat.abs (c2 (local_position d)) <? 0.01)%float = false ->
   velocity_callback d = Return tt d).
Proof.
  intros Hs.
  unfold velocity_callback, bind, gets. rewrite Hs.
  destruct (c2 (global_position d) - c2 (global_home d) <? 0.1)%float;
    destruct (PrimFloat.abs (c2 (local_position d)) <? 0.01)%float;
    cbn [final]; run_method; cbn [final flight_state set_flight_state push_sent];
    rewrite ?Hs.
  - split; [tauto | intros [E | E]; discriminate E].
  - split; [| reflexivity].
    split; [discriminate | intros [_ E]; discriminate E].
  - split; [| reflexivity].
    split; [discriminate | intros [E _]; discriminate E].
  - split; [| reflexivity].
    split; [discriminate | intros [E _]; discriminate E].
Qed.

(** [landing_velocity_update] on the ground at home, and 2 m above it. *)
Lemma landing_velocity_update_witness :
  flight_state (final (velocity_callback (Sample.descending 0.05 0 (-0.001))))
  = DISARMING /\
  velocity_callback (Sample.descending 2 0 (-2))
  = Return tt (Sample.descending 2 0 (-2)).
Proof.
  split.
  - apply (proj1 (landing_velocity_update
                    (Sample.descending 0.05 0 (-0.001)) eq_refl)).
    split; reflexivity.
  - apply (proj2 (landing_velocity_update (Sample.descending 2 0 (-2)) eq_refl)).
    left. reflexivity.
Defined.

(** C9: [waypoint_transition] removes the front of the queue without testing
    it: on a non-empty queue the front becomes the target, on an empty one
    the [pop] raises [IndexError]; the TAKEOFF branch of the local-position
    callback calls it without looking at the queue and so raises on an empty
    waypoint list. *)
Theorem waypoint_transition_needs_waypoint (d : Drone) :
  (forall w ws,
     waypoints d = w :: ws ->
     exists d',
       waypoint_transition d = Return tt d' /\
       waypoints d' = ws /\ target_position d' = PyList w) /\
  (waypoints d = [] ->
   waypoint_transition d = Raise IndexError (set_flight_state WAYPOINT d)) /\
  (flight_state d = TAKEOFF ->
   (0.95 * target_alt (target_position d) <? -1.0 * c2 (local_position d))%float
   = true ->
   waypoints d = [] ->
   local_position_callback d = Raise IndexError (set_flight_state WAYPOINT d)).
Proof.
  repeat split.
  - intros w ws Hw. eexists. split.
    + apply waypoint_transition_pops, Hw.
    + split; reflexivity.
  - apply waypoint_transition_empty.
  - intros Hs Hup Hw.
    unfold local_position_callback, bind, gets. rewrite Hs.
    unfold takeoff_reached. rewrite Hup.
    apply waypoint_transition_empty, Hw.
Qed.

(** [waypoint_transition_needs_waypoint] with one waypoint queued, with none,
    and at 4.8 m of the climb to 5 m with none. *)
Lemma waypoint_transition_needs_waypoint_witness :
  (exists d',
     waypoint_transition (Sample.cruising [Sample.wp2] 7 2) = Return tt d' /\
     waypoints d' = [] /\ target_position d' = PyList Sample.wp2) /\
  waypoint_transition (Sample.cruising [] 7 2)
  = Raise IndexError (Sample.cruising [] 7 2) /\
  local_position_callback (Sample.climbing [] (-4.8))
  = Raise IndexError (set_flight_state WAYPOINT (Sample.climbing [] (-4.8))).
Proof.
  split; [| split].
  - apply (proj1 (waypoint_transition_needs_waypoint
                    (Sample.cruising [Sample.wp2] 7 2)) Sample.wp2 []).
    reflexivity.
  - apply (proj1 (proj2 (waypoint_transition_needs_waypoint
                           (Sample.cruising [] 7 2)))).
    reflexivity.
  - apply (proj2 (proj2 (waypoint_transition_needs_waypoint
                           (Sample.climbing [] (-4.8))))); reflexivity.
Defined.

(** ** After the mission *)

(** With the mission over, the status callback does nothing, in any state. *)
Lemma state_callback_after_mission `{Planner} (w : World)
  (draws : list (nat * nat)) (d : Drone) :
  in_mission d = false -> state_callback w draws d = Return tt d.
Proof.
  intros Hm. unfold state_callback, bind, gets. rewrite Hm. reflexivity.
Qed.

(** At rest, a message only refreshes the telemetry. *)
Lemma deliver_at_rest `{Planner} (w : World) (draws : list (nat * nat))
  (m : message) (d : Drone) :
  at_rest d ->
  exists d',
    deliver w draws m d = Return tt d' /\ at_rest d' /\
    sent d' = sent d /\ waypoints d' = waypoints d.
Proof.
  intros [Hs Hm]. destruct d. cbn in Hs, Hm. subst.
  destruct m as [p | v | a g | pos home]; eexists;
    (split; [reflexivity | repeat split]).
Qed.

Lemma run_at_rest `{Planner} (w : World) (ms : list (message * list (nat * nat))) :
  forall d : Drone,
    at_rest d ->
    exists d',
      run w ms d = Return tt d' /\ at_rest d' /\
      sent d' = sent d /\ waypoints d' = waypoints d.
Proof.
  induction ms as [| [m draws] ms IH]; intros d Hd.
  - exists d. repeat split; apply Hd.
  - destruct (deliver_at_rest w draws m d Hd) as (d1 & E1 & R1 & S1 & W1).
    destruct (IH d1 R1) as (d2 & E2 & R2 & S2 & W2).
    exists d2. split.
    + cbn [run]. rewrite (bind_return _ _ _ _ _ E1). exact E2.
    + split; [exact R2 | split; congruence].
Qed.

(** C10: [manual_transition] leaves the state machine in MANUAL with
    [in_mission] false; from then on every sequence of telemetry messages
    returns with the state still MANUAL, [in_mission] still false and no
    further command sent, and the status callback alone changes nothing. *)
Theorem mission_runs_once `{Planner} (w : World)
  (ms : list (message * list (nat * nat))) (draws : list (nat * nat))
  (d : Drone) :
  exists d1,
    manual_transition d = Return tt d1 /\
    flight_state d1 = MANUAL /\ in_mission d1 = false /\
    state_callback w draws d1 = Return tt d1 /\
    exists d2,
      run w ms d1 = Return tt d2 /\
      flight_state d2 = MANUAL /\ in_mission d2 = false /\
      sent d2 = sent d1.
Proof.
  eexists. split; [reflexivity |].
  split; [reflexivity |]. split; [reflexivity |].
  split; [apply state_callback_after_mission; reflexivity |].
  match goal with
  | |- exists d2, run w ms ?d1 = _ /\ _ =>
      destruct (run_at_rest w ms d1 (conj eq_refl eq_refl))
        as (d2 & E & [Rs Rm] & S & _)
  end.
  exists d2. repeat split; assumption.
Qed.

(** ** The waypoints of [plan_path] *)

(** What the heading loop returns: one waypoint per triple, in order, the
    [k]-th with heading [theta[i + k]]. *)
Lemma append_headings_spec (theta : list float) (ws : list (Z * Z * Z)) :
  forall (i : nat) (r : list waypoint),
    append_headings i ws theta = inr r ->
    length r = length ws /\
    forall k n e a,
      nth_error ws k = Some (n, e, a) ->
      exists h,
        nth_error theta (i + k) = Some h /\
        nth_error r k
        = Some {| wp_north := n; wp_east := e; wp_alt := a; wp_heading := h |}.
Proof.
  induction ws as [| [[n0 e0] a0] ws IH]; intros i r E; cbn [append_headings] in E.
  - injection E as <-. split; [reflexivity |].
    intros k n e a Hk. destruct k; discriminate Hk.
  - destruct (nth_error theta i) as [h0 |] eqn:Hh; [| discriminate E].
    destruct (append_headings (S i) ws theta) as [x | r'] eqn:Er;
      [discriminate E |].
    injection E as <-.
    destruct (IH (S i) r' Er) as [Hlen Hnth].
    split; [cbn [length]; now rewrite Hlen |].
    intros [| k] n e a Hk; cbn [nth_error] in Hk |- *.
    + injection Hk as <- <- <-. exists h0. rewrite Nat.add_0_r. now split.
    + destruct (Hnth k n e a Hk) as (h & Hth & Hr).
      exists h. rewrite Nat.add_succ_r. now split.
Qed.

(** The heading loop succeeds when [heading] gives at least one angle per
    point. *)
Lemma append_headings_total (theta : list float) (ws : list (Z * Z * Z)) :
  forall i : nat,
    (i + length ws <= length theta)%nat ->
    exists r, append_headings i ws theta = inr r.
Proof.
  induction ws as [| [[n0 e0] a0] ws IH]; intros i Hlen; cbn [append_headings].
  - now eexists.
  - cbn [length] in Hlen.
    destruct (nth_error theta i) as [h0 |] eqn:Hh.
    + destruct (IH (S i)) as [r Er]; [lia |]. rewrite Er. now eexists.
    + apply nth_error_None in Hh. lia.
Qed.

(** The goal loop reads the grid and the draws only: it leaves the
    attributes alone and its result does not depend on them. *)
Lemma pick_goal_final (grid : Grid) (draws : list (nat * nat)) (d : Drone) :
  final (pick_goal grid draws d) = d.
Proof.
  unfold pick_goal. destruct (indexable grid); [| reflexivity].
  induction draws as [| [r c] draws IH]; cbn [draw_goal]; [reflexivity |].
  destruct (grid_at grid r c) as [[|] |]; [exact IH | reflexivity | reflexivity].
Qed.

Lemma pick_goal_return (grid : Grid) (draws : list (nat * nat)) (d d' : Drone)
  (g : cell) :
  pick_goal grid draws d = Return g d' ->
  d' = d /\ forall d0, pick_goal grid draws d0 = Return g d0.
Proof.
  intros E. split.
  - pose proof (pick_goal_final grid draws d) as F. rewrite E in F. exact F.
  - unfold pick_goal in E |- *.
    destruct (indexable grid); [| discriminate E].
    induction draws as [| [r c] draws IH]; cbn [draw_goal] in E |- *;
      [discriminate E |].
    destruct (grid_at grid r c) as [[|] |]; intros d0.
    + apply IH, E.
    + cbv [ret] in E |- *. injection E as <- _. reflexivity.
    + discriminate E.
Qed.

(** [plan_path] step by step: the outcome of each stage decides the
    outcome of the call. *)
Lemma plan_path_stages `{Planner} (w : World) (draws : list (nat * nat))
  (d : Drone) :
  plan_path w draws d
  = let '(grid, north_offset, east_offset) :=
      create_grid (data w) TARGET_ALTITUDE SAFETY_DISTANCE in
    let skeleton := medial_axis (invert grid) in
    let d0 := planning_started w d in
    match py_int (c0 (local_position d) - Z2float north_offset)%float with
    | inl e => Raise e d0
    | inr start_n =>
    match py_int (c1 (local_position d) - Z2float east_offset)%float with
    | inl e => Raise e d0
    | inr start_e =>
    match pick_goal grid draws d0 with
    | Raise e d1 => Raise e d1
    | Hang d1 => Hang d1
    | Return goal_ne d1 =>
    match find_start_goal skeleton (start_n, start_e) goal_ne with
    | inl e => Raise e d1
    | inr sg =>
    match a_star (invert skeleton) (fst sg) (snd sg) with
    | inl e => Raise e d1
    | inr pc =>
    match append_headings 0
            (path_to_triples north_offset east_offset (collinearity (fst pc)))
            (heading (collinearity (fst pc))) with
    | inl e => Raise e d1
    | inr ws => Return tt (push_sent (SendWaypoints ws) (set_waypoints ws d1))
    end end end end end end.
Proof.
  unfold plan_path, planning_started.
  destruct (create_grid (data w) TARGET_ALTITUDE SAFETY_DISTANCE)
    as [[grid north_offset] east_offset].
  cbv [bind modify gets send lift].
  cbn [local_position target_position set_flight_state set_target_position
       push_sent].
  destruct (py_int (c0 (local_position d) - Z2float north_offset)%float);
    [reflexivity |].
  destruct (py_int (c1 (local_position d) - Z2float east_offset)%float);
    [reflexivity |].
  cbv [ret].
  match goal with |- context [pick_goal grid draws ?x] =>
    destruct (pick_goal grid draws x) as [goal_ne d1 | e d1 | d1] end;
    [| reflexivity | reflexivity].
  destruct (find_start_goal _ _ goal_ne); [reflexivity |].
  destruct (a_star _ _ _); [reflexivity |].
  destruct (append_headings _ _ _); reflexivity.
Qed.

(** C7: the waypoint queue that [plan_path] produces follows the simplified
    path: it has the length and order of [collinearity] applied to the path
    of [a_star], and its [i]-th waypoint is (north, east, altitude, heading)
    with north and east the [i]-th cell plus the offsets of [create_grid],
    the altitude [TARGET_ALTITUDE] and the heading [heading(path)[i]].  It
    holds of every call that returns, and the call does return once every
    stage succeeds and [heading] gives an angle for each point. *)
Theorem plan_path_waypoints `{Planner} (w : World) (draws : list (nat * nat))
  (d : Drone) (grid : Grid) (north_offset east_offset : Z) :
  create_grid (data w) TARGET_ALTITUDE SAFETY_DISTANCE
  = (grid, north_offset, east_offset) ->
  (forall d',
     plan_path w draws d = Return tt d' ->
     exists start goal sg path_ cost,
       find_start_goal (medial_axis (invert grid)) start goal = inr sg /\
       a_star (invert (medial_axis (invert grid))) (fst sg) (snd sg)
       = inr (path_, cost) /\
       waypoints_follow north_offset east_offset (collinearity path_)
         (waypoints d')) /\
  (forall start_n start_e goal_ne sg path_ cost,
     py_int (c0 (local_position d) - Z2float north_offset)%float = inr start_n ->
     py_int (c1 (local_position d) - Z2float east_offset)%float = inr start_e ->
     (forall d0, pick_goal grid draws d0 = Return goal_ne d0) ->
     find_start_goal (medial_axis (invert grid)) (start_n, start_e) goal_ne
     = inr sg ->
     a_star (invert (medial_axis (invert grid))) (fst sg) (snd sg)
     = inr (path_, cost) ->
     (length (collinearity path_) <= length (heading (collinearity path_)))%nat ->
     exists d',
       plan_path w draws d = Return tt d' /\
       waypoints_follow north_offset east_offset (collinearity path_)
         (waypoints d')).
Proof.
  intros Hgrid.
  assert (Hfollow : forall path ws,
            append_headings 0 (path_to_triples north_offset east_offset path)
              (heading path) = inr ws ->
            waypoints_follow north_offset east_offset path ws).
  { intros path ws Hws.
    destruct (append_headings_spec _ _ _ _ Hws) as [Hlen Hnth].
    unfold path_to_triples in Hlen, Hnth. rewrite length_map in Hlen.
    split; [exact Hlen |].
    intros i p Hp. apply (Hnth i). rewrite nth_error_map, Hp. reflexivity. }
  split.
  - intros d' Hrun. rewrite plan_path_stages, Hgrid in Hrun. cbv zeta in Hrun.
    destruct (py_int (c0 (local_position d) - Z2float north_offset)%float)
      as [? | start_n]; [discriminate Hrun |].
    destruct (py_int (c1 (local_position d) - Z2float east_offset)%float)
      as [? | start_e]; [discriminate Hrun |].
    destruct (pick_goal grid draws (planning_started w d))
      as [goal_ne d1 | ? ? | ?]; [| discriminate Hrun | discriminate Hrun].
    destruct (find_start_goal _ _ goal_ne) as [? | sg] eqn:Hsg;
      [discriminate Hrun |].
    destruct (a_star _ _ _) as [? | [path_ cost]] eqn:Hpath;
      [discriminate Hrun |].
    cbn [fst] in Hrun.
    destruct (append_headings _ _ _) as [? | ws] eqn:Hws; [discriminate Hrun |].
    injection Hrun as <-.
    exists (start_n, start_e), goal_ne, sg, path_, cost.
    split; [exact Hsg | split; [exact Hpath |]].
    apply Hfollow, Hws.
  - intros start_n start_e goal_ne sg path_ cost Hn He Hgoal Hsg Hpath Hlen.
    destruct (append_headings_total (heading (collinearity path_))
                (path_to_triples north_offset east_offset (collinearity path_))
                0%nat) as [ws Hws].
    { unfold path_to_triples. rewrite length_map. exact Hlen. }
    exists (push_sent (SendWaypoints ws)
              (set_waypoints ws (planning_started w d))).
    split; [| apply Hfollow, Hws].
    rewrite plan_path_stages, Hgrid. cbv zeta.
    rewrite Hn, He, Hgoal, Hsg, Hpath. cbn [fst]. rewrite Hws. reflexivity.
Qed.

(** [plan_path_waypoints] on the open field with the goal drawn at the cell
    [(0, 0)]: the call returns three waypoints, from the start at north 0,
    east 0 to the goal at north -1, east -2. *)
Lemma plan_path_waypoints_witness :
  exists d',
    @plan_path Sample.planner Sample.open_field [(0, 0)%nat] Sample.armed_drone
    = Return tt d' /\
    @waypoints_follow Sample.planner (-1) (-2) [(1, 2); (0, 1); (0, 0)]%Z
      (waypoints d').
Proof.
  apply (proj2 (@plan_path_waypoints Sample.planner Sample.open_field
                  [(0, 0)%nat] Sample.armed_drone _ (-1)%Z (-2)%Z eq_refl)
           1%Z 2%Z (0, 0)%Z ((1, 2), (0, 0))%Z [(1, 2); (0, 1); (0, 0)]%Z
           (PrimFloat.sqrt 2 + (1 + 0))%float);
    reflexivity.
Defined.

(** ** A planning stage that fails *)

(** When [plan_path] raises, at whatever stage, the attributes are those it
    had set before reading the map. *)
Lemma plan_path_raise_state `{Planner} (w : World) (draws : list (nat * nat))
  (d d1 : Drone) (e : exn) :
  plan_path w draws d = Raise e d1 -> d1 = planning_started w d.
Proof.
  rewrite plan_path_stages.
  destruct (create_grid (data w) TARGET_ALTITUDE SAFETY_DISTANCE)
    as [[grid north_offset] east_offset].
  cbv zeta.
  destruct (py_int _); [intros E; now injection E |].
  destruct (py_int _); [intros E; now injection E |].
  pose proof (pick_goal_final grid draws (planning_started w d)) as F.
  destruct (pick_goal grid draws (planning_started w d))
    as [goal_ne d0 | e0 d0 | d0]; cbn [final] in F; subst d0;
    [| intros E; now injection E | discriminate].
  destruct (find_start_goal _ _ _); [intros E; now injection E |].
  destruct (a_star _ _ _); [intros E; now injection E |].
  destruct (append_headings _ _ _); [intros E; now injection E | discriminate].
Qed.

(** C3 (counterexample): on the walled field the goal [(0, 0)] cannot be
    reached and the search raises [NoPathFound]; the status callback raises
    it too and leaves the state machine in PLANNING, not in MANUAL, and the
    next status callback takes off with the empty waypoint queue. *)
Lemma search_failure_stays_planning :
  exists d1 d2,
    @state_callback Sample.planner Sample.walled_field [(0, 0)%nat]
      Sample.armed_drone = Raise NoPathFound d1 /\
    flight_state d1 = PLANNING /\
    flight_state d1 <> MANUAL /\
    @state_callback Sample.planner Sample.walled_field [] d1 = Return tt d2 /\
    flight_state d2 = TAKEOFF /\
    waypoints d2 = [] /\
    In (Takeoff 5) (sent d2).
Proof.
  do 2 eexists.
  split; [vm_compute; reflexivity |].
  split; [reflexivity |].
  split; [discriminate |].
  split; [vm_compute; reflexivity |].
  split; [reflexivity |].
  split; [reflexivity |].
  right. left. reflexivity.
Qed.

(** C3 (amended): when the planning stage raises while the status callback
    runs it from ARMING, the callback raises the same exception; the state
    machine is left in PLANNING with the mission still on, the waypoint queue
    as it was and no takeoff sent (only the home position); a further status
    callback then runs [takeoff_transition]. *)
Theorem planning_failure_propagates `{Planner} (w : World)
  (draws draws' : list (nat * nat)) (d d1 : Drone) (e : exn) :
  flight_state d = ARMING ->
  in_mission d = true ->
  armed d = true ->
  plan_path w draws d = Raise e d1 ->
  state_callback w draws d = Raise e d1 /\
  flight_state d1 = PLANNING /\
  in_mission d1 = true /\
  waypoints d1 = waypoints d /\
  sent d1 = sent d ++ [SetHomePosition (lon0 w) (lat0 w) 0] /\
  exists d2,
    state_callback w draws' d1 = Return tt d2 /\
    flight_state d2 = TAKEOFF /\
    waypoints d2 = waypoints d /\
    sent d2 = sent d1 ++ [Takeoff (target_alt (target_position d1))].
Proof.
  intros Hs Hm Ha Hrun.
  pose proof (plan_path_raise_state w draws d d1 e Hrun) as ->.
  split.
  { unfold state_callback, bind, gets. rewrite Hm, Hs, Ha. exact Hrun. }
  split; [reflexivity |]. split; [exact Hm |].
  split; [reflexivity |]. split; [reflexivity |].
  eexists. split.
  { unfold state_callback, bind, gets.
    cbn [in_mission flight_state planning_started push_sent set_target_position
         set_flight_state].
    rewrite Hm. reflexivity. }
  repeat split.
Qed.

(** [planning_failure_propagates] for the two failures of the pipeline: the
    walled goal ([NoPathFound]) and a drone that is off the map
    ([NoSkeletonReachable]). *)
Lemma planning_failure_propagates_witness :
  flight_state
    (final (@state_callback Sample.planner Sample.walled_field [(0, 0)%nat]
              Sample.armed_drone)) = PLANNING /\
  @state_callback Sample.planner Sample.open_field [(0, 0)%nat]
    Sample.stray_drone
  = Raise NoSkeletonReachable
      (@planning_started Sample.planner Sample.open_field Sample.stray_drone).
Proof.
  split.
  - destruct (@planning_failure_propagates Sample.planner Sample.walled_field
                [(0, 0)%nat] [] Sample.armed_drone
                (@planning_started Sample.planner Sample.walled_field
                   Sample.armed_drone)
                NoPathFound eq_refl eq_refl eq_refl eq_refl) as [E _].
    rewrite E. reflexivity.
  - apply (@planning_failure_propagates Sample.planner Sample.open_field
             [(0, 0)%nat] [] Sample.stray_drone
             (@planning_started Sample.planner Sample.open_field
                Sample.stray_drone)
             NoSkeletonReachable eq_refl eq_refl eq_refl eq_refl).
Defined.

(** ** The random goal *)





(** ** The path simplifier *)

(** The determinant as the cross product of the two segments. *)
Lemma det3_cross (a b c : cell) :
  det3 a b c
  = ((fst b - fst a) * (snd c - snd b) - (snd b - snd a) * (fst c - fst b))%Z.
Proof. unfold det3. ring. Qed.

(** Two unit steps in a row that are collinear and do not come back to the
    cell they left are the same step. *)
Lemma collinear_unit_steps (a b c : cell) :
  unit_step a b -> unit_step b c -> a <> c -> det3 a b c = 0%Z ->
  (fst c - fst b = fst b - fst a)%Z /\ (snd c - snd b = snd b - snd a)%Z.
Proof.
  unfold unit_step. rewrite det3_cross.
  destruct a as [ax ay], b as [bx by_], c as [cx cy]. cbn [fst snd].
  intros Hab Hbc Hac Hdet.
  assert (Hne : ((cx - bx) + (bx - ax) <> 0 \/ (cy - by_) + (by_ - ay) <> 0)%Z).
  { destruct (Z.eq_dec cx ax) as [-> |]; [| left; lia].
    destruct (Z.eq_dec cy ay) as [-> |]; [| right; lia].
    now contradiction Hac. }
  remember (bx - ax)%Z as dx1. remember (by_ - ay)%Z as dy1.
  remember (cx - bx)%Z as dx2. remember (cy - by_)%Z as dy2.
  assert (Hx1 : (dx1 = -1 \/ dx1 = 0 \/ dx1 = 1)%Z) by lia.
  assert (Hy1 : (dy1 = -1 \/ dy1 = 0 \/ dy1 = 1)%Z) by lia.
  assert (Hx2 : (dx2 = -1 \/ dx2 = 0 \/ dx2 = 1)%Z) by lia.
  assert (Hy2 : (dy2 = -1 \/ dy2 = 0 \/ dy2 = 1)%Z) by lia.
  clear Heqdx1 Heqdy1 Heqdx2 Heqdy2.
  destruct Hx1 as [-> | [-> | ->]], Hy1 as [-> | [-> | ->]],
           Hx2 as [-> | [-> | ->]], Hy2 as [-> | [-> | ->]];
    cbn in Hab, Hbc, Hdet; try discriminate; try lia.
Qed.

(** The equation of [simplify_from] at an interior point. *)
Lemma simplify_from_interior (epsilon : Q) (a b c : cell) (rest : list cell) :
  simplify_from epsilon a (b :: c :: rest)
  = if collinear epsilon a b c then simplify_from epsilon b (c :: rest)
    else b :: simplify_from epsilon b (c :: rest).
Proof. reflexivity. Qed.

Lemma sharp_from_interior (epsilon : Q) (a b c : cell) (l : list cell) :
  sharp_from epsilon a (b :: c :: l)
  = (collinear epsilon a b c = false /\ sharp_from epsilon b (c :: l)).
Proof. reflexivity. Qed.

Section Simplifier.

Variable epsilon : Q.
Hypothesis epsilon_positive : 0 < epsilon.
Hypothesis epsilon_small : epsilon <= 1 # 2.

(** On cells the area is a multiple of one half, so a small enough
    epsilon makes the test exact. *)
Lemma collinear_det (a b c : cell) :
  collinear epsilon a b c = true <-> det3 a b c = 0%Z.
Proof.
  unfold collinear, signed_area. rewrite negb_true_iff.
  change (Qabs (det3 a b c # 2)) with (Z.abs (det3 a b c) # 2).
  destruct epsilon as [n m].
  unfold Qlt in epsilon_positive. unfold Qle in epsilon_small.
  cbn [Qnum Qden] in epsilon_positive, epsilon_small.
  split.
  - intros Hb.
    destruct (Z.eq_dec (det3 a b c) 0) as [| Hne]; [assumption | exfalso].
    assert (Hle : Qle_bool (n # m) (Z.abs (det3 a b c) # 2) = true).
    { apply Qle_bool_iff. unfold Qle. cbn [Qnum Qden]. nia. }
    congruence.
  - intros ->. cbn [Z.abs].
    destruct (Qle_bool (n # m) (0 # 2)) eqn:Hb; [exfalso | reflexivity].
    apply Qle_bool_iff in Hb. unfold Qle in Hb. cbn [Qnum Qden] in Hb. lia.
Qed.

Lemma not_collinear_det (a b c : cell) :
  collinear epsilon a b c = false <-> det3 a b c <> 0%Z.
Proof.
  rewrite <- collinear_det. destruct (collinear epsilon a b c); split;
    congruence.
Qed.

(** Along a path the first point kept after [a] lies ahead of [a] in the
    direction of the first step. *)
Lemma simplify_from_head (rest : list cell) :
  forall a b : cell,
    unit_steps_from a (b :: rest) ->
    NoDup (a :: b :: rest) ->
    exists (q : cell) (l : list cell) (m : Z),
      simplify_from epsilon a (b :: rest) = q :: l /\
      (1 <= m)%Z /\
      (fst q - fst a = m * (fst b - fst a))%Z /\
      (snd q - snd a = m * (snd b - snd a))%Z.
Proof.
  induction rest as [| c rest IH]; intros a b Hsteps Hnodup.
  - exists b, [], 1%Z. cbn [simplify_from]. repeat split; lia.
  - rewrite simplify_from_interior.
    destruct (collinear epsilon a b c) eqn:Hcol.
    + destruct Hsteps as [Hab [Hbc Hrest]].
      assert (Hac : a <> c).
      { apply NoDup_cons_iff in Hnodup. destruct Hnodup as [Hin _].
        intros ->. apply Hin. right. left. reflexivity. }
      apply collinear_det in Hcol.
      destruct (collinear_unit_steps a b c Hab Hbc Hac Hcol) as [Hx Hy].
      destruct (IH b c) as (q & l & m & E & Hm & Hqx & Hqy).
      { split; assumption. }
      { apply NoDup_cons_iff in Hnodup. apply Hnodup. }
      exists q, l, (m + 1)%Z. split; [exact E |].
      split; [lia |]. split; nia.
    + eexists b, _, 1%Z. split; [reflexivity |]. repeat split; lia.
Qed.

(** The points kept along a path turn at each interior point, also as
    seen from any point [a'] that lies behind the first one. *)
Lemma simplify_from_sharp (rest : list cell) :
  forall (a a' b : cell) (k : Z),
    unit_steps_from a (b :: rest) ->
    NoDup (a :: b :: rest) ->
    (1 <= k)%Z ->
    (fst b - fst a' = k * (fst b - fst a))%Z ->
    (snd b - snd a' = k * (snd b - snd a))%Z ->
    sharp_from epsilon a' (simplify_from epsilon a (b :: rest)).
Proof.
  induction rest as [| c rest IH]; intros a a' b k Hsteps Hnodup Hk Hx Hy.
  - cbn. split; exact I.
  - assert (Hnodup' : NoDup (b :: c :: rest)).
    { apply NoDup_cons_iff in Hnodup. apply Hnodup. }
    destruct Hsteps as [Hab [Hbc Hrest]].
    assert (Hsteps' : unit_steps_from b (c :: rest)) by (split; assumption).
    rewrite simplify_from_interior.
    destruct (collinear epsilon a b c) eqn:Hcol.
    + assert (Hac : a <> c).
      { apply NoDup_cons_iff in Hnodup. destruct Hnodup as [Hin _].
        intros ->. apply Hin. right. left. reflexivity. }
      apply collinear_det in Hcol.
      destruct (collinear_unit_steps a b c Hab Hbc Hac Hcol) as [Hcx Hcy].
      apply (IH b a' c (k + 1)%Z); [assumption | assumption | lia | nia | nia].
    + destruct (simplify_from_head rest b c Hsteps' Hnodup')
        as (q & l & m & E & Hm & Hqx & Hqy).
      rewrite E, sharp_from_interior. split.
      * apply not_collinear_det in Hcol. apply not_collinear_det.
        rewrite det3_cross in Hcol |- *.
        rewrite Hx, Hy, Hqx, Hqy.
        intros Hzero. apply Hcol.
        assert (Hkm : (k * m <> 0)%Z) by nia.
        apply (Z.mul_cancel_l _ 0%Z (k * m)%Z Hkm).
        rewrite Z.mul_0_r, <- Hzero. ring.
      * rewrite <- E.
        apply (IH b b c 1%Z); [assumption | assumption | lia | lia | lia].
Qed.

(** The simplifier keeps a list that already turns at every interior
    point. *)
Lemma simplify_from_fixes_sharp (l : list cell) :
  forall a : cell,
    sharp_from epsilon a l -> simplify_from epsilon a l = l.
Proof.
  induction l as [| b l IH]; intros a Hsharp; [reflexivity |].
  cbn [sharp_from] in Hsharp. destruct Hsharp as [Hturn Hrest].
  cbn [simplify_from]. destruct l as [| c l]; [reflexivity |].
  rewrite Hturn. f_equal. apply IH, Hrest.
Qed.

(** C8: the path simplifier is idempotent on every Path:
    [simplify (simplify p) = simplify p]. *)
Theorem simplify_idempotent (p : list cell) :
  Path p ->
  simplify epsilon (simplify epsilon p) = simplify epsilon p.
Proof.
  intros [Hsteps Hnodup]. destruct p as [| a rest]; [reflexivity |].
  cbn [simplify]. f_equal.
  apply simplify_from_fixes_sharp.
  destruct rest as [| b rest]; [exact I |].
  apply (simplify_from_sharp rest a a b 1%Z); [assumption | assumption | | |];
    lia.
Qed.

End Simplifier.

(** [simplify_idempotent] on the dogleg path, which the simplifier reduces to
    its start, its two bends and its goal. *)
Lemma simplify_idempotent_witness :
  Path Sample.dogleg /\
  simplify Sample.epsilon Sample.dogleg = [(0, 0); (2, 0); (4, 2); (4, 3)]%Z /\
  simplify Sample.epsilon (simplify Sample.epsilon Sample.dogleg)
  = simplify Sample.epsilon Sample.dogleg.
Proof.
  assert (HP : Path Sample.dogleg).
  { split.
    - cbn. repeat split.
    - repeat constructor; cbn; intuition congruence. }
  split; [exact HP |]. split; [reflexivity |].
  apply (simplify_idempotent Sample.epsilon); [reflexivity | | exact HP].
  unfold Qle. cbn. lia.
Defined.

(** Idempotence needs a path that visits no cell twice: on a sequence that
    steps back onto a cell it has left, a second pass removes a point that
    the first pass kept. *)
Remark simplify_backtrack_twice :
  simplify Sample.epsilon Sample.backtrack = [(0, 0); (0, 0); (0, 1)]%Z /\
  simplify Sample.epsilon (simplify Sample.epsilon Sample.backtrack)
  = [(0, 0); (0, 1)]%Z.
Proof. split; reflexivity. Qed.

(** The two tests of the specification: of three collinear points the
    middle one goes, of three others all stay. *)
Remark simplify_three_points :
  simplify Sample.epsilon [(0, 0); (1, 1); (2, 2)]%Z = [(0, 0); (2, 2)]%Z /\
  simplify Sample.epsilon [(0, 0); (1, 1); (2, 1)]%Z
  = [(0, 0); (1, 1); (2, 1)]%Z.
Proof. split; reflexivity. Qed.

(** ** A whole mission *)

(** The states that the sample mission goes through, message after message,
    from a fresh object, and the commands that it has sent at its end.  The
    last status message still reports the vehicle armed and guided. *)
Example sample_mission_trace :
  map (fun n =>
         flight_state
           (final (@run Sample.planner Sample.open_field
                     (firstn n Sample.mission)
                     (init Sample.origin Sample.origin Sample.origin
                        Sample.origin false false))))
      (seq 0 10)
  = [MANUAL; ARMING; PLANNING; TAKEOFF; WAYPOINT; WAYPOINT; LANDING; LANDING;
     DISARMING; MANUAL] /\
  map (fun c => match c with SendWaypoints _ => None | _ => Some c end)
      (sent (final (@run Sample.planner Sample.open_field Sample.mission
                      (init Sample.origin Sample.origin Sample.origin
                         Sample.origin false false))))
  = [Some Arm; Some TakeControl;
     Some (SetHomePosition (-122.39745) 37.79248 0); None;
     Some (Takeoff 5); Some (CmdPosition 0 0 5 0);
     Some (CmdPosition 1 1 5 (Sample.pi / 4)); Some Land; Some Disarm;
     Some ReleaseControl; Some Stop].
Proof. split; vm_compute; reflexivity. Qed.

(** * Further properties *)

(** ** The goal loop *)

(** X1: the goal that the loop returns is the first draw on a free cell: every
    draw before it hit an occupied cell of the grid, and the loop leaves the
    attributes alone. *)
Theorem pick_goal_first_free (grid : Grid) (draws : list (nat * nat))
  (d d' : Drone) (goal_ne : cell) :
  pick_goal grid draws d = Return goal_ne d' ->
  d' = d /\
  exists (k r c : nat),
    nth_error draws k = Some (r, c) /\
    goal_ne = (Z.of_nat r, Z.of_nat c) /\
    grid_at grid r c = Some false /\
    forall j r' c',
      (j < k)%nat -> nth_error draws j = Some (r', c') ->
      grid_at grid r' c' = Some true.
Proof.
  intros E. split; [apply (pick_goal_return grid draws d d' goal_ne E) |].
  revert E. unfold pick_goal. destruct (indexable grid); [| discriminate].
  induction draws as [| [r c] draws IH]; cbn [draw_goal];
    [discriminate |].
  destruct (grid_at grid r c) as [[|] |] eqn:Hcell; intros E.
  - destruct (IH E) as (k & r0 & c0 & Hk & Hg & Hfree & Hbefore).
    exists (S k), r0, c0. repeat split; try assumption.
    intros [| j] r' c' Hj Hnth; cbn [nth_error] in Hnth.
    + injection Hnth as <- <-. exact Hcell.
    + apply (Hbefore j r' c'); [lia | exact Hnth].
  - cbv [ret] in E. injection E as <- _.
    exists 0%nat, r, c. repeat split; try assumption.
    intros j r' c' Hj. lia.
  - discriminate E.
Qed.

(** [pick_goal_first_free] on the walled field: the draws [(0, 1)], [(1, 1)]
    hit the wall and the third draw [(2, 3)] is the goal. *)
Lemma pick_goal_first_free_witness :
  Sample.armed_drone = Sample.armed_drone /\
  exists (k r c : nat),
    nth_error [(0, 1); (1, 1); (2, 3); (0, 0)]%nat k = Some (r, c) /\
    (2, 3)%Z = (Z.of_nat r, Z.of_nat c) /\
    grid_at (fst (fst (@data Sample.planner Sample.walled_field))) r c
    = Some false /\
    forall j r' c',
      (j < k)%nat ->
      nth_error [(0, 1); (1, 1); (2, 3); (0, 0)]%nat j = Some (r', c') ->
      grid_at (fst (fst (@data Sample.planner Sample.walled_field))) r' c'
      = Some true.
Proof.
  exact (pick_goal_first_free
           (fst (fst (@data Sample.planner Sample.walled_field)))
           [(0, 1); (1, 1); (2, 3); (0, 0)]%nat
           Sample.armed_drone Sample.armed_drone (2, 3)%Z eq_refl).
Defined.

(** ** What [plan_path] leaves behind *)

(** However [plan_path] ends, the attributes are those of its prologue, or
    those with the waypoints of the heading loop stored and uploaded. *)
Lemma plan_path_outcome `{Planner} (w : World) (draws : list (nat * nat))
  (d : Drone) :
  final (plan_path w draws d) = planning_started w d \/
  exists ws north_offset east_offset path,
    append_headings 0 (path_to_triples north_offset east_offset path)
      (heading path) = inr ws /\
    plan_path w draws d
    = Return tt (push_sent (SendWaypoints ws)
                   (set_waypoints ws (planning_started w d))).
Proof.
  rewrite plan_path_stages.
  destruct (create_grid (data w) TARGET_ALTITUDE SAFETY_DISTANCE)
    as [[grid north_offset] east_offset].
  cbv zeta.
  destruct (py_int _); [left; reflexivity |].
  destruct (py_int _); [left; reflexivity |].
  pose proof (pick_goal_final grid draws (planning_started w d)) as F.
  destruct (pick_goal grid draws (planning_started w d))
    as [goal_ne d0 | e0 d0 | d0]; cbn [final] in F; subst d0;
    [| left; reflexivity | left; reflexivity].
  destruct (find_start_goal _ _ _); [left; reflexivity |].
  destruct (a_star _ _ _) as [| pc]; [left; reflexivity |].
  destruct (append_headings _ _ _) as [| ws] eqn:Hws; [left; reflexivity |].
  right. exists ws, north_offset, east_offset, (collinearity (fst pc)).
  split; [exact Hws | reflexivity].
Qed.

Lemma target_alt_stored (t : target) :
  target_alt (store_target_alt TARGET_ALTITUDE t) = Z2float TARGET_ALTITUDE.
Proof. destruct t; reflexivity. Qed.

(** [plan_path] sets the state first and never writes the mission flag. *)
Lemma plan_path_state `{Planner} (w : World) (draws : list (nat * nat))
  (d : Drone) :
  flight_state (final (plan_path w draws d)) = PLANNING /\
  in_mission (final (plan_path w draws d)) = in_mission d.
Proof.
  destruct (plan_path_outcome w draws d)
    as [E | (ws & no & eo & path & _ & E)]; rewrite E; split; reflexivity.
Qed.

(** However [plan_path] ends on a map file: with nothing sent when the
    header cannot be read, with the home position sent, or with the waypoints
    of the heading loop stored and uploaded after it. *)
Lemma plan_path_from_outcome `{Planner} (f : map_file)
  (draws : list (nat * nat)) (d : Drone) :
  (header_fails f = true /\
   exists e, plan_path_from f draws d = Raise e (planning_begun d)) \/
  (header_fails f = false /\
   exists lon lat,
     final (plan_path_from f draws d)
     = push_sent (SetHomePosition lon lat 0) (planning_begun d)) \/
  (header_fails f = false /\
   exists lon lat ws north_offset east_offset path,
     append_headings 0 (path_to_triples north_offset east_offset path)
       (heading path) = inr ws /\
     plan_path_from f draws d
     = Return tt (push_sent (SendWaypoints ws)
                    (set_waypoints ws
                       (push_sent (SetHomePosition lon lat 0)
                          (planning_begun d))))).
Proof.
  destruct f as [w | e | lat lon e]; cbn [plan_path_from header_fails].
  - destruct (plan_path_outcome w draws d)
      as [E | (ws & no & eo & path & Hws & E)]; right.
    + left. split; [reflexivity |]. exists (lon0 w), (lat0 w). exact E.
    + right. split; [reflexivity |].
      exists (lon0 w), (lat0 w), ws, no, eo, path. split; assumption.
  - left. split; [reflexivity |]. exists e. reflexivity.
  - right. left. split; [reflexivity |]. exists lon, lat. reflexivity.
Qed.

(** X2: however [plan_path] ends on whatever the map file is (it returns,
    it raises at any stage, or the goal loop is still drawing), the state is
    PLANNING, the target altitude is 5, and the mission flag and the
    telemetry are untouched.  When the first line of the map file cannot be
    read nothing is sent; otherwise the home position is sent first.  The
    waypoint queue is replaced only if the call returns, by the list that is
    uploaded last. *)
Theorem plan_path_leaves_planning `{Planner} (f : map_file)
  (draws : list (nat * nat)) (d : Drone) :
  flight_state (final (plan_path_from f draws d)) = PLANNING /\
  target_alt (target_position (final (plan_path_from f draws d))) = 5%float /\
  in_mission (final (plan_path_from f draws d)) = in_mission d /\
  local_position (final (plan_path_from f draws d)) = local_position d /\
  local_velocity (final (plan_path_from f draws d)) = local_velocity d /\
  global_position (final (plan_path_from f draws d)) = global_position d /\
  global_home (final (plan_path_from f draws d)) = global_home d /\
  armed (final (plan_path_from f draws d)) = armed d /\
  guided (final (plan_path_from f draws d)) = guided d /\
  ((header_fails f = true /\
    (exists e d', plan_path_from f draws d = Raise e d') /\
    waypoints (final (plan_path_from f draws d)) = waypoints d /\
    sent (final (plan_path_from f draws d)) = sent d) \/
   (header_fails f = false /\
    waypoints (final (plan_path_from f draws d)) = waypoints d /\
    exists lon lat,
      sent (final (plan_path_from f draws d))
      = sent d ++ [SetHomePosition lon lat 0]) \/
   (header_fails f = false /\
    exists d' lon lat,
      plan_path_from f draws d = Return tt d' /\
      sent d'
      = sent d ++ [SetHomePosition lon lat 0; SendWaypoints (waypoints d')])).
Proof.
  destruct (plan_path_from_outcome f draws d)
    as [(Hf & e & E) | [(Hf & lon & lat & E)
                       | (Hf & lon & lat & ws & no & eo & path & _ & E)]];
    rewrite E; cbn [final];
    repeat (split; [first [reflexivity | apply target_alt_stored] |]).
  - left. split; [exact Hf |]. split; [eauto |]. split; reflexivity.
  - right. left. split; [exact Hf |]. split; [reflexivity |].
    exists lon, lat. reflexivity.
  - right. right. split; [exact Hf |]. eexists _, lon, lat.
    split; [reflexivity |].
    cbn [sent waypoints push_sent set_waypoints planning_begun
         set_target_position set_flight_state].
    rewrite <- app_assoc. reflexivity.
Qed.

(** The heading loop on a [theta] with too few entries. *)
Lemma append_headings_short (theta : list float) (ws : list (Z * Z * Z)) :
  forall i : nat,
    (i <= length theta)%nat ->
    (length theta < i + length ws)%nat ->
    append_headings i ws theta = inl IndexError.
Proof.
  induction ws as [| [[n0 e0] a0] ws IH]; intros i Hi Hlen;
    cbn [length] in Hlen; [lia |].
  cbn [append_headings].
  destruct (nth_error theta i) as [h0 |] eqn:Hh; [| reflexivity].
  assert (i < length theta)%nat
    by (apply nth_error_Some; rewrite Hh; discriminate).
  rewrite IH by lia. reflexivity.
Qed.

(** X3: when [heading] returns fewer angles than the simplified path has
    points, [plan_path] raises [IndexError] in the heading loop, after every
    search stage has succeeded: no waypoint list is stored or uploaded, and
    the state is left at PLANNING. *)
Theorem plan_path_short_heading `{Planner} (w : World)
  (draws : list (nat * nat)) (d : Drone) (grid : Grid)
  (north_offset east_offset start_n start_e : Z) (goal_ne : cell)
  (sg : cell * cell) (path_ : list cell) (cost : float) :
  create_grid (data w) TARGET_ALTITUDE SAFETY_DISTANCE
  = (grid, north_offset, east_offset) ->
  py_int (c0 (local_position d) - Z2float north_offset)%float = inr start_n ->
  py_int (c1 (local_position d) - Z2float east_offset)%float = inr start_e ->
  (forall d0, pick_goal grid draws d0 = Return goal_ne d0) ->
  find_start_goal (medial_axis (invert grid)) (start_n, start_e) goal_ne
  = inr sg ->
  a_star (invert (medial_axis (invert grid))) (fst sg) (snd sg)
  = inr (path_, cost) ->
  (length (heading (collinearity path_)) < length (collinearity path_))%nat ->
  plan_path w draws d = Raise IndexError (planning_started w d) /\
  waypoints (planning_started w d) = waypoints d /\
  flight_state (planning_started w d) = PLANNING.
Proof.
  intros Hgrid Hn He Hgoal Hsg Hpath Hlen.
  split; [| split; reflexivity].
  rewrite plan_path_stages, Hgrid. cbv zeta.
  rewrite Hn, He, Hgoal, Hsg, Hpath. cbn [fst].
  rewrite append_headings_short; [reflexivity | lia |].
  unfold path_to_triples. rewrite length_map. exact Hlen.
Qed.

(** [plan_path_short_heading] with the planner that gives one angle per
    segment: on the open field, with the goal drawn at [(0, 0)], the path has
    three points and two angles. *)
Lemma plan_path_short_heading_witness :
  @plan_path Sample.segment_planner Sample.segment_field [(0, 0)%nat]
    Sample.armed_drone
  = Raise IndexError
      (@planning_started Sample.segment_planner Sample.segment_field
         Sample.armed_drone) /\
  waypoints (@planning_started Sample.segment_planner Sample.segment_field
               Sample.armed_drone) = [] /\
  flight_state (@planning_started Sample.segment_planner Sample.segment_field
                  Sample.armed_drone) = PLANNING.
Proof.
  apply (@plan_path_short_heading Sample.segment_planner Sample.segment_field
           [(0, 0)%nat] Sample.armed_drone
           (fst (fst (@data Sample.segment_planner Sample.segment_field)))
           (-1)%Z (-2)%Z 1%Z 2%Z (0, 0)%Z
           ((1, 2), (0, 0))%Z [(1, 2); (0, 1); (0, 0)]%Z
           (PrimFloat.sqrt 2 + (1 + 0))%float);
    try reflexivity.
  cbn. lia.
Defined.

(** ** Where each callback can lead *)

Lemma waypoint_transition_final (d : Drone) :
  final (waypoint_transition d)
  = match waypoints d with
    | [] => set_flight_state WAYPOINT d
    | w :: ws =>
        push_sent
          (CmdPosition (wp_north w) (wp_east w) (wp_alt w) (wp_heading w))
          (set_target_position (PyList w)
             (set_waypoints ws (set_flight_state WAYPOINT d)))
    end.
Proof.
  destruct (waypoints d) as [| w ws] eqn:Hw.
  - rewrite waypoint_transition_empty by exact Hw. reflexivity.
  - rewrite (waypoint_transition_pops d w ws) by exact Hw. reflexivity.
Qed.

Lemma local_position_callback_final (d : Drone) :
  final (local_position_callback d)
  = match flight_state d with
    | TAKEOFF =>
        if takeoff_reached d then final (waypoint_transition d) else d
    | WAYPOINT =>
        if (target_distance d <? 5.0)%float then
          match waypoints d with
          | _ :: _ => final (waypoint_transition d)
          | [] =>
              if (horizontal_speed d <? 1.0)%float
              then final (landing_transition d) else d
          end
        else d
    | _ => d
    end.
Proof.
  unfold local_position_callback, bind, gets.
  destruct (flight_state d); try reflexivity.
  - destruct (takeoff_reached d); reflexivity.
  - destruct (target_distance d <? 5.0)%float; [| reflexivity].
    destruct (waypoints d) as [| w ws]; cbn [length Z.of_nat Z.ltb Z.compare].
    + destruct (horizontal_speed d <? 1.0)%float; reflexivity.
    + reflexivity.
Qed.

Lemma velocity_callback_final (d : Drone) :
  final (velocity_callback d)
  = match flight_state d with
    | LANDING =>
        if (c2 (global_position d) - c2 (global_home d) <? 0.1)%float then
          if (PrimFloat.abs (c2 (local_position d)) <? 0.01)%float
          then final (disarming_transition d) else d
        else d
    | _ => d
    end.
Proof.
  unfold velocity_callback, bind, gets.
  destruct (flight_state d); try reflexivity.
  destruct (c2 (global_position d) - c2 (global_home d) <? 0.1)%float;
    [| reflexivity].
  destruct (PrimFloat.abs (c2 (local_position d)) <? 0.01)%float; reflexivity.
Qed.

Lemma state_callback_final `{Planner} (w : World) (draws : list (nat * nat))
  (d : Drone) :
  final (state_callback w draws d)
  = if in_mission d then
      match flight_state d with
      | MANUAL => final (arming_transition d)
      | ARMING => if armed d then final (plan_path w draws d) else d
      | PLANNING => final (takeoff_transition d)
      | DISARMING => final (manual_transition d)
      | _ => d
      end
    else d.
Proof.
  unfold state_callback, bind, gets.
  destruct (in_mission d); [| reflexivity].
  destruct (flight_state d); try reflexivity.
  - destruct (armed d); reflexivity.
  - rewrite disarm_guard_always. reflexivity.
Qed.

(** A message changes the telemetry it carries, then the callback runs. *)
Lemma deliver_final `{Planner} (w : World) (draws : list (nat * nat))
  (m : message) (d : Drone) :
  final (deliver w draws m d)
  = match m with
    | MsgLocalPosition p =>
        final (local_position_callback (set_local_position p d))
    | MsgLocalVelocity v => final (velocity_callback (set_local_velocity v d))
    | MsgState a g => final (state_callback w draws (set_status a g d))
    | MsgGlobal pos home => set_global pos home d
    end.
Proof. destruct m; reflexivity. Qed.

(** X4: whatever the telemetry and whatever the outcome of the callback, a
    message leaves the state where it was or moves it one step along the
    mission: a local position only from TAKEOFF to WAYPOINT and from WAYPOINT
    to LANDING, a velocity only from LANDING to DISARMING, a vehicle status
    only from MANUAL to ARMING, ARMING to PLANNING, PLANNING to TAKEOFF and
    DISARMING to MANUAL, and a global position not at all. *)
Theorem deliver_moves_one_step `{Planner} (w : World)
  (draws : list (nat * nat)) (m : message) (d : Drone) :
  may_move m (flight_state d) (flight_state (final (deliver w draws m d))).
Proof.
  rewrite deliver_final. unfold may_move. destruct m as [p | v | a g | pos home].
  - rewrite local_position_callback_final, !waypoint_transition_final.
    cbn [flight_state set_local_position waypoints].
    destruct (flight_state d) eqn:Hs; try (left; exact Hs).
    + destruct (takeoff_reached _); [| left; exact Hs].
      right. destruct (waypoints d); reflexivity.
    + destruct (_ <? 5.0)%float; [| left; exact Hs].
      destruct (waypoints d); [| left; reflexivity].
      destruct (_ <? 1.0)%float; [right; reflexivity | left; exact Hs].
  - rewrite velocity_callback_final.
    cbn [flight_state set_local_velocity].
    destruct (flight_state d) eqn:Hs; try (left; exact Hs).
    destruct (_ <? 0.1)%float; [| left; exact Hs].
    destruct (_ <? 0.01)%float; [right; reflexivity | left; exact Hs].
  - rewrite state_callback_final.
    cbn [flight_state in_mission armed set_status].
    destruct (in_mission d); [| left; reflexivity].
    destruct (flight_state d) eqn:Hs; try (left; exact Hs);
      try (right; reflexivity).
    destruct a; [| left; exact Hs].
    right. apply plan_path_state.
  - left. reflexivity.
Qed.

(** ** The status callback before the flight *)

(** X5: during the mission, a vehicle status received in MANUAL arms and takes
    control whatever the flags say; in ARMING it changes nothing until the
    vehicle reports armed, and then the callback is the planning stage; in
    PLANNING it takes off to the target altitude. *)
Theorem status_update_before_flight `{Planner} (w : World)
  (draws : list (nat * nat)) (d : Drone) :
  in_mission d = true ->
  (flight_state d = MANUAL ->
   exists d',
     state_callback w draws d = Return tt d' /\
     flight_state d' = ARMING /\
     sent d' = sent d ++ [Arm; TakeControl] /\
     waypoints d' = waypoints d) /\
  (flight_state d = ARMING -> armed d = false ->
   state_callback w draws d = Return tt d) /\
  (flight_state d = ARMING -> armed d = true ->
   state_callback w draws d = plan_path w draws d) /\
  (flight_state d = PLANNING ->
   exists d',
     state_callback w draws d = Return tt d' /\
     flight_state d' = TAKEOFF /\
     sent d' = sent d ++ [Takeoff (target_alt (target_position d))] /\
     waypoints d' = waypoints d).
Proof.
  intros Hm. repeat split.
  - intros Hs. eexists. split.
    + unfold state_callback, bind, gets. rewrite Hm, Hs. reflexivity.
    + cbn [flight_state sent waypoints push_sent set_flight_state].
      rewrite <- app_assoc. repeat split.
  - intros Hs Ha. unfold state_callback, bind, gets. rewrite Hm, Hs, Ha.
    reflexivity.
  - intros Hs Ha. unfold state_callback, bind, gets. rewrite Hm, Hs, Ha.
    reflexivity.
  - intros Hs. eexists. split.
    + unfold state_callback, bind, gets. rewrite Hm, Hs. reflexivity.
    + repeat split.
Qed.

(** [status_update_before_flight] on a fresh object that reports disarmed,
    on the sample drone waiting in ARMING without the armed flag, and on the
    same drone once [plan_path] has set PLANNING. *)
Lemma status_update_before_flight_witness :
  (exists d',
     @state_callback Sample.planner Sample.open_field []
       (init Sample.origin Sample.origin Sample.origin Sample.origin
          false false)
     = Return tt d' /\
     flight_state d' = ARMING /\
     sent d' = [Arm; TakeControl] /\
     waypoints d' = []) /\
  @state_callback Sample.planner Sample.open_field [(0, 0)%nat]
    (set_status false true Sample.armed_drone)
  = Return tt (set_status false true Sample.armed_drone) /\
  (exists d',
     @state_callback Sample.planner Sample.open_field []
       (set_flight_state PLANNING Sample.armed_drone)
     = Return tt d' /\
     flight_state d' = TAKEOFF /\
     sent d' = [Takeoff 0] /\
     waypoints d' = []).
Proof.
  split; [| split].
  - apply (proj1 (@status_update_before_flight Sample.planner
                    Sample.open_field []
                    (init Sample.origin Sample.origin Sample.origin
                       Sample.origin false false) eq_refl)).
    reflexivity.
  - apply (proj1 (proj2 (@status_update_before_flight Sample.planner
                           Sample.open_field [(0, 0)%nat]
                           (set_status false true Sample.armed_drone)
                           eq_refl))); reflexivity.
  - apply (proj2 (proj2 (proj2 (@status_update_before_flight Sample.planner
                                  Sample.open_field []
                                  (set_flight_state PLANNING Sample.armed_drone)
                                  eq_refl)))).
    reflexivity.
Defined.

(** ** The bookkeeping of a mission *)

Lemma append_headings_altitude (theta : list float) (alt : Z)
  (ts : list (Z * Z * Z)) :
  forall (i : nat) (ws : list waypoint),
    Forall (fun t => snd t = alt) ts ->
    append_headings i ts theta = inr ws ->
    Forall (fun w => wp_alt w = alt) ws.
Proof.
  induction ts as [| [[n0 e0] a0] ts IH]; intros i ws Hts E;
    cbn [append_headings] in E.
  - injection E as <-. constructor.
  - destruct (nth_error theta i); [| discriminate E].
    destruct (append_headings (S i) ts theta) as [| r] eqn:Er;
      [discriminate E |].
    injection E as <-.
    constructor.
    + apply Forall_inv in Hts. exact Hts.
    + apply (IH (S i)); [apply Forall_inv_tail in Hts; exact Hts | exact Er].
Qed.

Lemma path_to_triples_altitude (north_offset east_offset : Z)
  (path : list cell) :
  Forall (fun t => snd t = TARGET_ALTITUDE)
    (path_to_triples north_offset east_offset path).
Proof.
  unfold path_to_triples. apply Forall_map, Forall_forall. reflexivity.
Qed.

(** The callbacks on any map file. *)
Lemma state_callback_from_final `{Planner} (f : map_file)
  (draws : list (nat * nat)) (d : Drone) :
  final (state_callback_from f draws d)
  = if in_mission d then
      match flight_state d with
      | MANUAL => final (arming_transition d)
      | ARMING => if armed d then final (plan_path_from f draws d) else d
      | PLANNING => final (takeoff_transition d)
      | DISARMING => final (manual_transition d)
      | _ => d
      end
    else d.
Proof.
  unfold state_callback_from, bind, gets.
  destruct (in_mission d); [| reflexivity].
  destruct (flight_state d); try reflexivity.
  - destruct (armed d); reflexivity.
  - rewrite disarm_guard_always. reflexivity.
Qed.

Lemma deliver_from_final `{Planner} (f : map_file) (draws : list (nat * nat))
  (m : message) (d : Drone) :
  final (deliver_from f draws m d)
  = match m with
    | MsgLocalPosition p =>
        final (local_position_callback (set_local_position p d))
    | MsgLocalVelocity v => final (velocity_callback (set_local_velocity v d))
    | MsgState a g => final (state_callback_from f draws (set_status a g d))
    | MsgGlobal pos home => set_global pos home d
    end.
Proof. destruct m; reflexivity. Qed.

(** On a map file that is read, they are the callbacks on its contents. *)
Lemma deliver_from_readable `{Planner} (w : World) (draws : list (nat * nat))
  (m : message) :
  deliver_from (Readable w) draws m = deliver w draws m.
Proof. destruct m; reflexivity. Qed.

(** The telemetry attributes play no part in the bookkeeping. *)
Lemma coherent_telemetry (quiet : bool) (d : Drone) :
  coherent quiet d ->
  (forall p, coherent quiet (set_local_position p d)) /\
  (forall v, coherent quiet (set_local_velocity v d)) /\
  (forall a g, coherent quiet (set_status a g d)) /\
  (forall pos home, coherent quiet (set_global pos home d)).
Proof.
  intros [Hover Hsteps Hqueue Hcmd Htake Hplan Hcons Hyet].
  repeat split; assumption.
Qed.

Lemma coherent_init (quiet : bool) (lp lv gp gh : vec3) (a g : bool) :
  coherent quiet (init lp lv gp gh a g).
Proof.
  split; cbn; try constructor; try reflexivity; try discriminate.
  destruct quiet; reflexivity.
Qed.

Lemma steps_push (l : list command) (c : command) :
  steps (l ++ [c]) = steps l ++ step_of c.
Proof.
  unfold steps. rewrite flat_map_app. cbn [flat_map]. now rewrite app_nil_r.
Qed.

Lemma commanded_push (l : list command) (c : command) :
  commanded (l ++ [c]) = commanded l ++ commanded [c].
Proof. unfold commanded. apply flat_map_app. Qed.

Lemma uploads_push (l : list command) (c : command) :
  uploads (l ++ [c]) = uploads l ++ uploads [c].
Proof. unfold uploads. apply flat_map_app. Qed.

Lemma takeoffs_push (l : list command) (c : command) :
  takeoffs (l ++ [c]) = takeoffs l ++ takeoffs [c].
Proof. unfold takeoffs. apply flat_map_app. Qed.

(** Reading the log of a drone after some commands were pushed. *)
Ltac read_log :=
  cbn [flight_state in_mission waypoints target_position sent
       set_flight_state set_in_mission set_waypoints set_target_position
       push_sent planning_started];
  rewrite ?steps_push, ?commanded_push, ?uploads_push, ?takeoffs_push;
  cbn [step_of commanded uploads takeoffs flat_map app
       wp_north wp_east wp_alt wp_heading];
  rewrite ?app_nil_r.

(** [waypoint_transition], called in TAKEOFF or WAYPOINT, keeps the
    bookkeeping, whether the queue is empty or not. *)
Lemma coherent_waypoint_transition (quiet : bool) (d : Drone) :
  coherent quiet d ->
  flight_state d = TAKEOFF \/ flight_state d = WAYPOINT ->
  coherent quiet (final (waypoint_transition d)).
Proof.
  intros [Hover Hsteps Hqueue Hcmd Htake Hplan Hcons Hyet] Hs.
  rewrite waypoint_transition_final.
  assert (Hfour : steps (sent d) = expected_steps quiet 4).
  { rewrite Hsteps. unfold progress. destruct Hs as [-> | ->]; reflexivity. }
  assert (Him : in_mission d = false -> False).
  { intros Hm. specialize (Hover Hm). destruct Hs; congruence. }
  destruct (waypoints d) as [| [n e alt h] q] eqn:Hq; split; read_log;
    try assumption; try discriminate;
    try (intros Hm; exfalso; exact (Him Hm));
    try (intros [Hx | [Hx _]]; discriminate Hx).
  - rewrite Hq. constructor.
  - rewrite Hq. exact Hcons.
  - apply Forall_inv_tail in Hqueue. exact Hqueue.
  - apply Forall_app. split; [exact Hcmd |].
    constructor; [| constructor]. apply Forall_inv in Hqueue. exact Hqueue.
  - destruct (uploads (sent d)) as [| ws [| ws' l]].
    + destruct Hcons as [_ Hnil]. discriminate Hnil.
    + rewrite <- app_assoc. exact Hcons.
    + exact Hcons.
Qed.

(** The transitions that send their commands and leave the queue alone. *)
Lemma coherent_landing_transition (quiet : bool) (d : Drone) :
  coherent quiet d -> flight_state d = WAYPOINT ->
  coherent quiet (final (landing_transition d)).
Proof.
  intros [Hover Hsteps Hqueue Hcmd Htake Hplan Hcons Hyet] Hs.
  unfold progress in Hsteps. rewrite Hs in Hsteps.
  assert (Him : in_mission d = false -> False)
    by (intros Hm; specialize (Hover Hm); congruence).
  split; unfold progress; cbn [landing_transition bind modify send final];
    read_log;
    try assumption; try discriminate;
    try (intros Hm; exfalso; exact (Him Hm));
    try (intros [Hx | [Hx _]]; discriminate Hx).
  rewrite Hsteps. destruct quiet; reflexivity.
Qed.

Lemma coherent_disarming_transition (quiet : bool) (d : Drone) :
  coherent quiet d -> flight_state d = LANDING ->
  coherent quiet (final (disarming_transition d)).
Proof.
  intros [Hover Hsteps Hqueue Hcmd Htake Hplan Hcons Hyet] Hs.
  unfold progress in Hsteps. rewrite Hs in Hsteps.
  assert (Him : in_mission d = false -> False)
    by (intros Hm; specialize (Hover Hm); congruence).
  split; unfold progress; cbn [disarming_transition bind modify send final];
    read_log;
    try assumption; try discriminate;
    try (intros Hm; exfalso; exact (Him Hm));
    try (intros [Hx | [Hx _]]; discriminate Hx).
  rewrite Hsteps. destruct quiet; reflexivity.
Qed.

Lemma coherent_arming_transition (quiet : bool) (d : Drone) :
  coherent quiet d -> flight_state d = MANUAL -> in_mission d = true ->
  coherent quiet (final (arming_transition d)).
Proof.
  intros [Hover Hsteps Hqueue Hcmd Htake Hplan Hcons Hyet] Hs Hm.
  unfold progress in Hsteps. rewrite Hs, Hm in Hsteps.
  split; unfold progress; cbn [arming_transition bind modify send final];
    read_log;
    try assumption; try discriminate;
    try (intros Hx; congruence).
  - rewrite Hsteps. destruct quiet; reflexivity.
  - intros _. apply Hyet. right. split; assumption.
Qed.

Lemma coherent_takeoff_transition (quiet : bool) (d : Drone) :
  coherent quiet d -> flight_state d = PLANNING ->
  coherent quiet (final (takeoff_transition d)).
Proof.
  intros [Hover Hsteps Hqueue Hcmd Htake Hplan Hcons Hyet] Hs.
  unfold progress in Hsteps. rewrite Hs in Hsteps.
  assert (Him : in_mission d = false -> False)
    by (intros Hm; specialize (Hover Hm); congruence).
  split; unfold progress;
    cbn [takeoff_transition bind modify send gets final];
    read_log;
    try assumption; try discriminate;
    try (intros Hm; exfalso; exact (Him Hm));
    try (intros [Hx | [Hx _]]; discriminate Hx).
  - rewrite Hsteps. destruct quiet; reflexivity.
  - apply Forall_app. split; [exact Htake |].
    constructor; [apply Hplan, Hs | constructor].
Qed.

Lemma coherent_manual_transition (quiet : bool) (d : Drone) :
  coherent quiet d -> flight_state d = DISARMING ->
  coherent quiet (final (manual_transition d)).
Proof.
  intros [Hover Hsteps Hqueue Hcmd Htake Hplan Hcons Hyet] Hs.
  unfold progress in Hsteps. rewrite Hs in Hsteps.
  split; unfold progress; cbn [manual_transition bind modify send final];
    read_log;
    try assumption; try discriminate; try reflexivity;
    try (intros [Hx | [_ Hx]]; discriminate Hx).
  rewrite Hsteps. destruct quiet; reflexivity.
Qed.

(** [plan_path], called in ARMING, keeps the bookkeeping however it ends
    and whatever the map file is. *)
Lemma coherent_plan_path_from `{Planner} (f : map_file)
  (draws : list (nat * nat)) (d : Drone) :
  coherent (header_fails f) d -> flight_state d = ARMING ->
  coherent (header_fails f) (final (plan_path_from f draws d)).
Proof.
  intros [Hover Hsteps Hqueue Hcmd Htake Hplan Hcons Hyet] Hs.
  unfold progress in Hsteps. rewrite Hs in Hsteps.
  assert (Him : in_mission d = false -> False)
    by (intros Hm; specialize (Hover Hm); congruence).
  assert (Hnone : uploads (sent d) = []) by (apply Hyet; left; exact Hs).
  rewrite Hnone in Hcons. destruct Hcons as [Hnocmd Hnoq].
  destruct (plan_path_from_outcome f draws d)
    as [(Hf & e & E) | [(Hf & lon & lat & E)
                       | (Hf & lon & lat & ws & no & eo & path & Hws & E)]];
    rewrite E, Hf in *; cbn [final];
    split; unfold progress, planning_begun; read_log;
    try assumption; try discriminate;
    try (intros Hm; exfalso; exact (Him Hm));
    try (intros [Hx | [Hx _]]; discriminate Hx);
    try (intros _; apply target_alt_stored).
  - rewrite Hnone, Hnocmd. split; [reflexivity | exact Hnoq].
  - rewrite Hsteps. reflexivity.
  - rewrite Hnone, Hnocmd. split; [reflexivity | exact Hnoq].
  - rewrite Hsteps. reflexivity.
  - apply (append_headings_altitude _ _ _ _ _
             (path_to_triples_altitude no eo path) Hws).
  - rewrite Hnone, Hnocmd. reflexivity.
Qed.

(** Every message keeps the bookkeeping, however its callback ends. *)
Lemma coherent_deliver_from `{Planner} (f : map_file)
  (draws : list (nat * nat)) (m : message) (d : Drone) :
  coherent (header_fails f) d ->
  coherent (header_fails f) (final (deliver_from f draws m d)).
Proof.
  intros Hd. rewrite deliver_from_final.
  destruct (coherent_telemetry _ d Hd) as (Hp & Hv & Hst & Hgl).
  destruct m as [p | v | a g | pos home].
  - specialize (Hp p). rewrite local_position_callback_final.
    destruct (flight_state (set_local_position p d)) eqn:Hs; try exact Hp.
    + destruct (takeoff_reached _); [| exact Hp].
      apply coherent_waypoint_transition; [exact Hp | left; exact Hs].
    + destruct (_ <? 5.0)%float; [| exact Hp].
      destruct (waypoints (set_local_position p d)) eqn:Hq.
      * destruct (_ <? 1.0)%float; [| exact Hp].
        apply coherent_landing_transition; assumption.
      * apply coherent_waypoint_transition; [exact Hp | right; exact Hs].
  - specialize (Hv v). rewrite velocity_callback_final.
    destruct (flight_state (set_local_velocity v d)) eqn:Hs; try exact Hv.
    destruct (_ <? 0.1)%float; [| exact Hv].
    destruct (_ <? 0.01)%float; [| exact Hv].
    apply coherent_disarming_transition; assumption.
  - specialize (Hst a g). rewrite state_callback_from_final.
    destruct (in_mission (set_status a g d)) eqn:Hm; [| exact Hst].
    destruct (flight_state (set_status a g d)) eqn:Hs; try exact Hst.
    + apply coherent_arming_transition; assumption.
    + destruct (armed (set_status a g d)); [| exact Hst].
      apply coherent_plan_path_from; assumption.
    + apply coherent_manual_transition; assumption.
    + apply coherent_takeoff_transition; assumption.
  - apply Hgl.
Qed.

(** What every message keeps, however its callback ends, holds after every
    sequence of messages. *)
Lemma drive_keeps `{Planner} (f : map_file) (I : Drone -> Prop) :
  (forall draws m d, I d -> I (final (deliver_from f draws m d))) ->
  forall (ms : list (message * list (nat * nat))) (d : Drone),
    I d -> I (drive f ms d).
Proof.
  intros Hstep ms. induction ms as [| [m draws] ms IH]; intros d Hd.
  - exact Hd.
  - cbn [drive].
    pose proof (Hstep draws m d Hd) as Hnext.
    destruct (deliver_from f draws m d) as [[] d' | e d' | d'];
      cbn [final] in Hnext.
    + apply IH, Hnext.
    + apply IH, Hnext.
    + exact Hnext.
Qed.

(** A run that ends with the first callback that does not return leaves
    the attributes of [drive] on the messages delivered till then. *)
Lemma run_is_driven `{Planner} (w : World)
  (ms : list (message * list (nat * nat))) :
  forall d : Drone,
    exists ms', final (run w ms d) = drive (Readable w) ms' d.
Proof.
  induction ms as [| [m draws] ms IH]; intros d.
  - exists []. reflexivity.
  - cbn [run]. unfold bind.
    destruct (deliver w draws m d) as [[] d' | e d' | d'] eqn:E.
    + destruct (IH d') as [ms' E']. exists ((m, draws) :: ms').
      cbn [drive]. rewrite deliver_from_readable, E. exact E'.
    + exists [(m, draws)]. cbn [drive].
      rewrite deliver_from_readable, E. reflexivity.
    + exists [(m, draws)]. cbn [drive].
      rewrite deliver_from_readable, E. reflexivity.
Qed.

Lemma drive_coherent `{Planner} (f : map_file)
  (ms : list (message * list (nat * nat))) (lp lv gp gh : vec3) (a g : bool) :
  coherent (header_fails f) (drive f ms (init lp lv gp gh a g)).
Proof.
  apply drive_keeps; [| apply coherent_init].
  intros draws m d. apply coherent_deliver_from.
Qed.

(** X6: from a fresh object, whatever the planner, the map file and the
    telemetry, and whether callbacks returned or raised on the way, the
    commands sent other than position commands and the upload are the
    first [progress] commands of the mission order (arm, take control, set
    home, take off, land, disarm, release control, stop), without the home
    position when the first line of the map file cannot be read: each is sent
    at most once and in that order, as far as the state reached tells; and
    the mission flag is down only in MANUAL. *)
Theorem mission_commands_in_order `{Planner} (f : map_file)
  (ms : list (message * list (nat * nat))) (lp lv gp gh : vec3) (a g : bool) :
  steps (sent (drive f ms (init lp lv gp gh a g)))
  = expected_steps (header_fails f)
      (progress (drive f ms (init lp lv gp gh a g))) /\
  (in_mission (drive f ms (init lp lv gp gh a g)) = false ->
   flight_state (drive f ms (init lp lv gp gh a g)) = MANUAL).
Proof.
  destruct (drive_coherent f ms lp lv gp gh a g) as [Hover Hsteps _ _ _ _ _ _].
  split; assumption.
Qed.

(** X7: from a fresh object, whatever the map file and whether callbacks
    returned or raised on the way, the waypoint list is uploaded at most
    once, and the position commands sent so far followed by the waypoints
    still queued are that list: the plan is flown in order, no waypoint
    skipped or repeated.  Before the upload no position command is sent and
    the queue is empty. *)
Theorem plan_flown_in_order `{Planner} (f : map_file)
  (ms : list (message * list (nat * nat))) (lp lv gp gh : vec3) (a g : bool) :
  (uploads (sent (drive f ms (init lp lv gp gh a g))) = [] /\
   commanded (sent (drive f ms (init lp lv gp gh a g))) = [] /\
   waypoints (drive f ms (init lp lv gp gh a g)) = []) \/
  (exists ws,
     uploads (sent (drive f ms (init lp lv gp gh a g))) = [ws] /\
     ws = commanded (sent (drive f ms (init lp lv gp gh a g)))
          ++ waypoints (drive f ms (init lp lv gp gh a g))).
Proof.
  destruct (drive_coherent f ms lp lv gp gh a g) as [_ _ _ _ _ _ Hcons _].
  destruct (uploads _) as [| ws [| ws' l]].
  - left. split; [reflexivity | exact Hcons].
  - right. exists ws. split; [reflexivity | exact Hcons].
  - contradiction.
Qed.

(** X8: from a fresh object, whatever the map file and whether callbacks
    returned or raised on the way, every takeoff command is to 5 m and every
    position command, like every waypoint still queued, is at the
    altitude 5. *)
Theorem mission_altitude `{Planner} (f : map_file)
  (ms : list (message * list (nat * nat))) (lp lv gp gh : vec3) (a g : bool) :
  Forall (fun alt => alt = 5%float)
    (takeoffs (sent (drive f ms (init lp lv gp gh a g)))) /\
  Forall (fun wp => wp_alt wp = 5%Z)
    (commanded (sent (drive f ms (init lp lv gp gh a g)))) /\
  Forall (fun wp => wp_alt wp = 5%Z)
    (waypoints (drive f ms (init lp lv gp gh a g))).
Proof.
  destruct (drive_coherent f ms lp lv gp gh a g)
    as [_ _ Hqueue Hcmd Htake _ _ _].
  repeat split; assumption.
Qed.

(** ** The queue *)

(** X9: unless it is a vehicle status received in ARMING, which may run
    [plan_path], a message keeps the position commands sent so far followed
    by the queue: a waypoint leaves the queue only from its front, and only
    as the position command that is sent for it. *)
Theorem queue_consumed_from_front `{Planner} (w : World)
  (draws : list (nat * nat)) (m : message) (d : Drone) :
  (forall a g, m = MsgState a g -> flight_state d <> ARMING) ->
  commanded (sent (final (deliver w draws m d)))
  ++ waypoints (final (deliver w draws m d))
  = commanded (sent d) ++ waypoints d.
Proof.
  intros Hm. rewrite deliver_final.
  assert (Hpop : forall d0,
            commanded (sent (final (waypoint_transition d0)))
            ++ waypoints (final (waypoint_transition d0))
            = commanded (sent d0) ++ waypoints d0).
  { intros d0. rewrite waypoint_transition_final.
    destruct (waypoints d0) as [| [n e alt h] q] eqn:Hq; read_log;
      [now rewrite Hq, app_nil_r | now rewrite <- app_assoc]. }
  destruct m as [p | v | a g | pos home].
  - rewrite local_position_callback_final.
    destruct (flight_state _); try reflexivity.
    + destruct (takeoff_reached _); [| reflexivity].
      exact (Hpop (set_local_position p d)).
    + destruct (_ <? 5.0)%float; [| reflexivity].
      destruct (waypoints (set_local_position p d)) eqn:Hq.
      * destruct (_ <? 1.0)%float; [| reflexivity].
        cbn [landing_transition bind modify send final]. read_log.
        reflexivity.
      * exact (Hpop (set_local_position p d)).
  - rewrite velocity_callback_final.
    destruct (flight_state _); try reflexivity.
    destruct (_ <? 0.1)%float; [| reflexivity].
    destruct (_ <? 0.01)%float; [| reflexivity].
    cbn [disarming_transition bind modify send final]. read_log. reflexivity.
  - rewrite state_callback_final.
    destruct (in_mission _); [| reflexivity].
    destruct (flight_state (set_status a g d)) eqn:Hs; try reflexivity.
    + cbn [arming_transition bind modify send final]. read_log. reflexivity.
    + exfalso. apply (Hm a g eq_refl). exact Hs.
    + cbn [manual_transition bind modify send final]. read_log. reflexivity.
    + cbn [takeoff_transition bind modify send gets final]. read_log.
      reflexivity.
  - reflexivity.
Qed.

(** [queue_consumed_from_front] on the sample drone flying to its first
    waypoint with the second one queued, as it comes within 3 m. *)
Lemma queue_consumed_from_front_witness :
  commanded (sent (final (@deliver Sample.planner Sample.open_field []
                            (MsgLocalPosition {| c0 := 7; c1 := 0; c2 := -5 |})
                            (Sample.cruising [Sample.wp2] 0 2))))
  ++ waypoints (final (@deliver Sample.planner Sample.open_field []
                         (MsgLocalPosition {| c0 := 7; c1 := 0; c2 := -5 |})
                         (Sample.cruising [Sample.wp2] 0 2)))
  = [Sample.wp2].
Proof.
  apply (@queue_consumed_from_front Sample.planner Sample.open_field []
           (MsgLocalPosition {| c0 := 7; c1 := 0; c2 := -5 |})
           (Sample.cruising [Sample.wp2] 0 2)).
  intros a g Hmsg. discriminate Hmsg.
Defined.

(** Each callback keeps the queue empty once the descent has begun. *)
Lemma descent_local_position_callback (d : Drone) :
  (in_mission d = false -> flight_state d = MANUAL) ->
  (descent_begun d -> waypoints d = []) ->
  descent_begun (final (local_position_callback d)) ->
  waypoints (final (local_position_callback d)) = [].
Proof.
  intros Hover Hempty. rewrite local_position_callback_final.
  assert (Hpop : descent_begun (final (waypoint_transition d)) ->
                 flight_state d <> MANUAL -> False).
  { rewrite waypoint_transition_final.
    destruct (waypoints d); unfold descent_begun;
      cbn [flight_state in_mission set_flight_state set_waypoints
           set_target_position push_sent];
      intros [Hx | [Hx | Hx]] Hs; try discriminate Hx; auto. }
  destruct (flight_state d) eqn:Hs; try exact Hempty.
  - destruct (takeoff_reached d); [| exact Hempty].
    intros Hdesc. exfalso. apply (Hpop Hdesc). discriminate.
  - destruct (_ <? 5.0)%float; [| exact Hempty].
    destruct (waypoints d) eqn:Hq.
    + destruct (_ <? 1.0)%float; [| intros _; exact Hq].
      intros _. exact Hq.
    + intros Hdesc. exfalso. apply (Hpop Hdesc). discriminate.
Qed.

Lemma descent_velocity_callback (d : Drone) :
  (descent_begun d -> waypoints d = []) ->
  descent_begun (final (velocity_callback d)) ->
  waypoints (final (velocity_callback d)) = [].
Proof.
  intros Hempty. rewrite velocity_callback_final.
  destruct (flight_state d) eqn:Hs; try exact Hempty.
  destruct (_ <? 0.1)%float; [| exact Hempty].
  destruct (_ <? 0.01)%float; [| exact Hempty].
  intros _. apply Hempty. left. exact Hs.
Qed.

Lemma plan_path_from_state `{Planner} (f : map_file)
  (draws : list (nat * nat)) (d : Drone) :
  flight_state (final (plan_path_from f draws d)) = PLANNING /\
  in_mission (final (plan_path_from f draws d)) = in_mission d.
Proof.
  destruct (plan_path_from_outcome f draws d)
    as [(_ & e & E) | [(_ & lon & lat & E)
                      | (_ & lon & lat & ws & no & eo & path & _ & E)]];
    rewrite E; split; reflexivity.
Qed.

Lemma descent_state_callback_from `{Planner} (f : map_file)
  (draws : list (nat * nat)) (d : Drone) :
  (descent_begun d -> waypoints d = []) ->
  descent_begun (final (state_callback_from f draws d)) ->
  waypoints (final (state_callback_from f draws d)) = [].
Proof.
  intros Hempty. rewrite state_callback_from_final.
  destruct (in_mission d) eqn:Him; [| exact Hempty].
  destruct (flight_state d) eqn:Hs; try exact Hempty.
  - unfold descent_begun.
    cbn [arming_transition bind modify send final flight_state in_mission
         push_sent set_flight_state].
    intros [Hx | [Hx | Hx]]; congruence.
  - destruct (armed d); [| exact Hempty].
    destruct (plan_path_from_state f draws d) as [Hst Hmis].
    unfold descent_begun. rewrite Hst, Hmis, Him.
    intros [Hx | [Hx | Hx]]; discriminate Hx.
  - intros _. apply Hempty. right. left. exact Hs.
  - unfold descent_begun.
    cbn [takeoff_transition bind modify send gets final flight_state
         in_mission push_sent set_flight_state].
    intros [Hx | [Hx | Hx]]; congruence.
Qed.

(** Every message keeps the queue empty once the descent has begun. *)
Lemma settled_deliver_from `{Planner} (f : map_file)
  (draws : list (nat * nat)) (m : message) (d : Drone) :
  settled (header_fails f) d ->
  settled (header_fails f) (final (deliver_from f draws m d)).
Proof.
  intros [Hd Hempty]. split; [apply coherent_deliver_from, Hd |].
  pose proof (over_is_manual _ d Hd) as Hover.
  rewrite deliver_from_final.
  destruct m as [p | v | a g | pos home].
  - apply descent_local_position_callback; assumption.
  - apply descent_velocity_callback; assumption.
  - apply descent_state_callback_from; assumption.
  - exact Hempty.
Qed.

(** X10: from a fresh object, whatever the map file and whether callbacks
    returned or raised on the way, once the descent has begun (the state is
    LANDING or DISARMING, or the mission is over) the queue is empty, and if
    a plan was uploaded the position commands sent are that plan, whole and
    in order: the vehicle lands only after its last waypoint was
    commanded. *)
Theorem lands_after_last_waypoint `{Planner} (f : map_file)
  (ms : list (message * list (nat * nat))) (lp lv gp gh : vec3) (a g : bool) :
  descent_begun (drive f ms (init lp lv gp gh a g)) ->
  waypoints (drive f ms (init lp lv gp gh a g)) = [] /\
  forall ws,
    In ws (uploads (sent (drive f ms (init lp lv gp gh a g)))) ->
    commanded (sent (drive f ms (init lp lv gp gh a g))) = ws.
Proof.
  intros Hdesc.
  assert (Hset : settled (header_fails f)
                   (drive f ms (init lp lv gp gh a g))).
  { apply drive_keeps.
    - intros draws m d. apply settled_deliver_from.
    - split; [apply coherent_init |].
      intros [Hx | [Hx | Hx]]; discriminate Hx. }
  destruct Hset as [Hcoh Hempty]. specialize (Hempty Hdesc).
  split; [exact Hempty |].
  intros ws Hin. pose proof (plan_consumed _ _ Hcoh) as Hcons.
  rewrite Hempty in Hcons.
  destruct (uploads _) as [| ws0 [| ws1 l]].
  - destruct Hin.
  - destruct Hin as [<- | []]. rewrite app_nil_r in Hcons. now symmetry.
  - contradiction.
Qed.

(** [lands_after_last_waypoint] at the end of the sample mission, where the
    two planned waypoints were both commanded, and on the mission whose map
    file has no readable header, which lands after two callbacks raised,
    with nothing planned and nothing commanded. *)
Lemma lands_after_last_waypoint_witness :
  (waypoints (@drive Sample.planner (Readable Sample.open_field)
                Sample.mission
                (init Sample.origin Sample.origin Sample.origin Sample.origin
                   false false)) = [] /\
   forall ws,
     In ws (uploads (sent (@drive Sample.planner (Readable Sample.open_field)
                             Sample.mission
                             (init Sample.origin Sample.origin Sample.origin
                                Sample.origin false false)))) ->
     commanded (sent (@drive Sample.planner (Readable Sample.open_field)
                        Sample.mission
                        (init Sample.origin Sample.origin Sample.origin
                           Sample.origin false false))) = ws) /\
  (waypoints (@drive Sample.planner (NoHeader ValueError)
                Sample.blind_mission
                (init Sample.origin Sample.origin Sample.origin Sample.origin
                   false false)) = [] /\
   forall ws,
     In ws (uploads (sent (@drive Sample.planner (NoHeader ValueError)
                             Sample.blind_mission
                             (init Sample.origin Sample.origin Sample.origin
                                Sample.origin false false)))) ->
     commanded (sent (@drive Sample.planner (NoHeader ValueError)
                        Sample.blind_mission
                        (init Sample.origin Sample.origin Sample.origin
                           Sample.origin false false))) = ws).
Proof.
  split.
  - apply (@lands_after_last_waypoint Sample.planner
             (Readable Sample.open_field) Sample.mission Sample.origin
             Sample.origin Sample.origin Sample.origin false false).
    right. right. reflexivity.
  - apply (@lands_after_last_waypoint Sample.planner (NoHeader ValueError)
             Sample.blind_mission Sample.origin Sample.origin Sample.origin
             Sample.origin false false).
    left. reflexivity.
Defined.

(** ** A mission without a map *)

(** The states that the mission without a readable map file goes through,
    message after message: [plan_path] raises when the vehicle reports
    armed, the next status takes off, the climb ends in the [IndexError] of
    the empty queue with the state at WAYPOINT, and the next position, within
    5 m of the target that was never replaced, lands; the commands sent are
    arm, take control, take off and land. *)
Example blind_mission_trace :
  map (fun n =>
         flight_state
           (@drive Sample.planner (NoHeader ValueError)
              (firstn n Sample.blind_mission)
              (init Sample.origin Sample.origin Sample.origin Sample.origin
                 false false)))
      (seq 0 6)
  = [MANUAL; ARMING; PLANNING; TAKEOFF; WAYPOINT; LANDING] /\
  sent (@drive Sample.planner (NoHeader ValueError) Sample.blind_mission
          (init Sample.origin Sample.origin Sample.origin Sample.origin
             false false))
  = [Arm; TakeControl; Takeoff 5; Land].
Proof. split; vm_compute; reflexivity. Qed.
